(** * The analytical aces-dev reference config generator

    A shallow embedding of
    [opencolorio_config_aces/config/reference/generate/analytical.py]:
    the view name beautifier, the builtin transform builder, the node to
    colorspace conversion and the assembly of the config data.

    Python strings are [string]s, lists are [list]s, the [set] of displays
    is a [gset string], a [dict] whose order matters is an association list
    in insertion order.  Logging and exceptions are threaded through a small
    monad [Py]. *)

From Stdlib Require Import Ascii.
From stdpp Require Import base strings list sorting gmap.

(** ** Python strings *)

(** The double quote character, for the messages and descriptions that
    quote a name. *)
Definition dq : string := String (ascii_of_nat 34) EmptyString.

Module Str.

(** [c.lower()] on the ASCII range. *)
Definition lower_ascii (c : ascii) : ascii :=
  let n := nat_of_ascii c in
  if (65 <=? n)%nat && (n <=? 90)%nat then ascii_of_nat (n + 32) else c.

(** [s.lower()]. *)
Fixpoint lower (s : string) : string :=
  match s with
  | EmptyString => EmptyString
  | String c s' => String (lower_ascii c) (lower s')
  end.

(** [s.startswith(p)]. *)
Fixpoint startswith (p s : string) : bool :=
  match p, s with
  | EmptyString, _ => true
  | String _ _, EmptyString => false
  | String a p', String b s' => if Ascii.eqb a b then startswith p' s' else false
  end.

(** The scan of [s.split(sep)] for a non-empty [sep]: [skip] counts the
    characters of a separator found earlier that are still to be passed
    over, [piece] is the segment read so far. *)
Fixpoint split_scan (sep : string) (skip : nat) (piece : string) (s : string)
  : list string :=
  match s with
  | EmptyString => [piece]
  | String c s' =>
      match skip with
      | S k => split_scan sep k piece s'
      | O =>
          if startswith sep s
          then piece :: split_scan sep (String.length sep - 1) EmptyString s'
          else split_scan sep 0 (piece +:+ String c EmptyString) s'
      end
  end.

(** [s.split(sep)]: [None] stands for the [ValueError] that Python raises
    on an empty separator. *)
Definition split (sep s : string) : option (list string) :=
  match sep with
  | EmptyString => None
  | String _ _ => Some (split_scan sep 0 EmptyString s)
  end.

(** [sep.join(l)]. *)
Fixpoint join (sep : string) (l : list string) : string :=
  match l with
  | [] => EmptyString
  | [x] => x
  | x :: l' => x +:+ sep +:+ join sep l'
  end.

(** The white space that [str.strip()] removes, on the ASCII range. *)
Definition is_space (c : ascii) : bool :=
  let n := nat_of_ascii c in
  ((9 <=? n)%nat && (n <=? 13)%nat) || ((28 <=? n)%nat && (n <=? 32)%nat).

Fixpoint lstrip (s : string) : string :=
  match s with
  | EmptyString => EmptyString
  | String c s' => if is_space c then lstrip s' else s
  end.

Fixpoint rstrip (s : string) : string :=
  match s with
  | EmptyString => EmptyString
  | String c s' =>
      match rstrip s' with
      | EmptyString => if is_space c then EmptyString else String c EmptyString
      | r => String c r
      end
  end.

(** [s.strip()]. *)
Definition strip (s : string) : string := rstrip (lstrip s).

(** [a <= b] on strings: lexicographic on the characters' code points. *)
Fixpoint leb (a b : string) : bool :=
  match a, b with
  | EmptyString, _ => true
  | String _ _, EmptyString => false
  | String x a', String y b' =>
      let m := nat_of_ascii x in
      let n := nat_of_ascii y in
      if (m <? n)%nat then true
      else if (n <? m)%nat then false
      else leb a' b'
  end.

(** [a < b] on strings. *)
Definition ltb (a b : string) : bool := negb (leb b a).

End Str.

(** ** Python lists and dicts *)

Module PyList.

(** [sorted(l, key=...)]: Python's sort is stable, and so is this
    insertion sort: an element is put before the first one whose key is
    strictly greater, elements are inserted from the last to the first. *)
Section sorted.
Context {A : Type} (le : A → A → bool).

Fixpoint insert_sorted (x : A) (l : list A) : list A :=
  match l with
  | [] => [x]
  | y :: l' => if le x y then x :: l else y :: insert_sorted x l'
  end.

Fixpoint sorted (l : list A) : list A :=
  match l with
  | [] => []
  | x :: l' => insert_sorted x (sorted l')
  end.
End sorted.

(** [l.index(x)]: the first position of [x], [None] for the [ValueError]. *)
Definition index (x : string) (l : list string) : option nat :=
  fst <$> list_find (λ y, y = x) l.

(** [l.pop(i)]: the element at [i] and the list without it, [None] for the
    [IndexError]. *)
Definition pop (i : nat) (l : list string) : option (string * list string) :=
  match l !! i with
  | Some x => Some (x, delete i l)
  | None => None
  end.

(** [x in l]. *)
Definition contains (x : string) (l : list string) : bool :=
  bool_decide (x ∈ l).

End PyList.

Module PyDict.

(** A [dict] with string keys, in insertion order. *)
Definition t (V : Type) : Type := list (string * V).

(** [k in d]. *)
Definition has_key {V} (k : string) (d : t V) : bool :=
  bool_decide (k ∈ d.*1).

(** [d[k] = v]: an existing key keeps its position. *)
Fixpoint setitem {V} (k : string) (v : V) (d : t V) : t V :=
  match d with
  | [] => [(k, v)]
  | (k', v') :: d' =>
      if String.eqb k' k then (k', v) :: d' else (k', v') :: setitem k v d'
  end.

(** [dict.fromkeys(keys)]: every key is bound to [None], here [tt]. *)
Definition fromkeys (keys : list string) : t unit :=
  foldl (λ d k, setitem k tt d) [] keys.

(** [list(d)]: the keys in insertion order. *)
Definition keys {V} (d : t V) : list string := d.*1.

End PyDict.

(** [itertools.chain.from_iterable] over a list of pairs. *)
Definition chain_from_iterable (path : list (string * string)) : list string :=
  flat_map (λ edge, [edge.1; edge.2]) path.

(** ** Exceptions and logging *)

Inductive exn : Type :=
| NetworkXNoPath
| OcioException
| ValueError
| IndexError.

#[global] Instance exn_eq_dec : EqDecision exn.
Proof. solve_decision. Defined.

Inductive level : Type := DEBUG | WARNING.

Definition log_record : Type := level * string.

Inductive outcome (A : Type) : Type :=
| Return (a : A)
| Raise (e : exn).
Arguments Return {A} a.
Arguments Raise {A} e.

(** A computation reads the log written so far and yields a value or an
    exception, and the log it leaves. *)
Definition Py (A : Type) : Type := list log_record → outcome A * list log_record.

Definition ret {A} (a : A) : Py A := λ l, (Return a, l).

Definition raise {A} (e : exn) : Py A := λ l, (Raise e, l).

Definition bind {A B} (m : Py A) (k : A → Py B) : Py B :=
  λ l, match m l with
       | (Return a, l') => k a l'
       | (Raise e, l') => (Raise e, l')
       end.

(** [try: m except e: handler]. *)
Definition try_except {A} (m : Py A) (e : exn) (handler : Py A) : Py A :=
  λ l, match m l with
       | (Raise e', l') =>
           if bool_decide (e' = e) then handler l' else (Raise e', l')
       | r => r
       end.

Definition logging_debug (msg : string) : Py unit :=
  λ l, (Return tt, l ++ [(DEBUG, msg)]).

Definition logging_warning (msg : string) : Py unit :=
  λ l, (Return tt, l ++ [(WARNING, msg)]).

(** A value that Python computes or raises on. *)
Definition lift_option {A} (e : exn) (o : option A) : Py A :=
  match o with
  | Some a => ret a
  | None => raise e
  end.

#[global] Instance Py_ret : MRet Py := @ret.
#[global] Instance Py_bind : MBind Py := λ A B k m, bind m k.

(** [for x in l: s = body(x, s)]. *)
Fixpoint for_each {A S} (l : list A) (body : A → S → Py S) (s : S) : Py S :=
  match l with
  | [] => ret s
  | x :: l' => s' ← body x s; for_each l' body s'
  end.

(** ** The data of the generator *)

(** The OpenColorIO transforms that the generator builds. *)
#[warnings="-register-all"]
Inductive Transform : Type :=
| BuiltinTransform (style : string)
| FileTransform (src : string)
| GroupTransform (transforms : list Transform).

(** [group_transform.appendTransform(transform)]. *)
Definition appendTransform (group_transform transform : Transform) : Transform :=
  match group_transform with
  | GroupTransform transforms => GroupTransform (transforms ++ [transform])
  | other => other
  end.

(** An OpenColorIO colorspace, with the attributes the generator sets. *)
Record ColorSpace : Type := {
  getName : string;
  getFamily : string;
  getDescription : string;
  to_reference_transform : option Transform;
  from_reference_transform : option Transform;
  isData : bool;
}.

(** Modelled from the spec: [colorspace_factory] of
    [opencolorio_config_aces.config.generation], which is not among the
    sources.  A ColorspaceEntry has a name, a family tag, a description,
    optional forward and reverse transform chains and an is-data flag; the
    factory sets each of them from its argument, a transform that is not
    given is absent and a colorspace is not data unless said so. *)
Definition colorspace_factory (name family description : string)
    (to_reference from_reference : option Transform) (is_data : bool)
  : ColorSpace :=
  {| getName := name;
     getFamily := family;
     getDescription := description;
     to_reference_transform := to_reference;
     from_reference_transform := from_reference;
     isData := is_data |}.

(** A view: the dict with the keys ['display'], ['view'] and
    ['colorspace']. *)
Record View : Type := {
  view_display : string;
  view_view : string;
  view_colorspace : string;
}.

(** A file rule: the dict with the keys ['name'] and ['colorspace']. *)
Record FileRule : Type := {
  rule_name : string;
  rule_colorspace : string;
}.

(** The keyword arguments that [generate_config_aces] gives [ConfigData]. *)
Record ConfigData : Type := {
  description : string;
  roles : gmap string string;
  colorspaces : list ColorSpace;
  views : list View;
  active_displays : list string;
  active_views : list string;
  file_rules : list FileRule;
  profile_version : nat;
}.

(** ** What the module imports

    The constants, types and functions that [analytical.py] imports from
    the rest of the package, from NetworkX and from PyOpenColorIO.  The
    decorator [required] only checks that an optional library is there: the
    libraries are taken to be installed.  [conversion_path] gives [None]
    where it raises [NetworkXNoPath]; its nodes are the nodes of the graph,
    so that it raises nothing else.  [builtin_style_defined] tells the
    styles that [BuiltinTransform.setStyle] accepts.  [generate_config] gives
    the exception that it raises, if any. *)
Class Imports : Type := {
  NODE_NAME_SEPARATOR : string;
  ACES_CONFIG_BUILTIN_TRANSFORM_NAME_SEPARATOR : string;
  ACES_CONFIG_COLORSPACE_NAME_SEPARATOR : string;
  ACES_CONFIG_OUTPUT_ENCODING_COLORSPACE : string;
  ACES_CONFIG_REFERENCE_COLORSPACE : string;
  ROLE_SCENE_LINEAR : string;
  DiGraph : Type;
  CTLTransform : Type;
  ColorspaceDescriptionStyle : Type;
  Config : Type;
  family : CTLTransform → string;
  genus : CTLTransform → string;
  conversion_path : DiGraph → string → string → option (list (string * string));
  filter_nodes : DiGraph → list (CTLTransform → bool) → list string;
  node_to_ctl_transform : DiGraph → string → CTLTransform;
  beautify_name : string → PyDict.t string → string;
  beautify_display_name : string → string;
  ctl_transform_to_colorspace :
    CTLTransform → ColorspaceDescriptionStyle →
    option Transform → option Transform → ColorSpace;
  builtin_style_defined : string → bool;
  generate_config : ConfigData → option string → bool → exn + Config;
}.

(** What [generate_config_aces] returns: the config, or the tuple of the
    config, the config data and the dict of the colorspaces and their CTL
    transforms.  The keys of that dict are colorspace objects, each one made
    anew: the dict is the list of its items in insertion order. *)
Inductive Generated `{Imports} : Type :=
| ConfigOnly (config : Config)
| ConfigAndData (config : Config) (data : ConfigData)
    (colorspaces_to_ctl_transforms : list (ColorSpace * CTLTransform)).

(** The variables that the classification loop of [generate_config_aces]
    updates. *)
Record Classified `{Imports} : Type := {
  cl_colorspaces_to_ctl_transforms : list (ColorSpace * CTLTransform);
  cl_colorspaces : list ColorSpace;
  cl_displays : gset string;
  cl_views : list View;
}.

Section analytical.
Context `{Imports}.

Definition VIEW_NAME_SUBSTITUTION_PATTERNS : PyDict.t string :=
  [ ("\(100 nits\) dim", "");
    ("\(100 nits\)", "");
    ("\(48 nits\)", "");
    ("Output" +:+ ACES_CONFIG_COLORSPACE_NAME_SEPARATOR, "") ].

Definition beautify_view_name (name : string) : string :=
  beautify_name name VIEW_NAME_SUBSTITUTION_PATTERNS.

(** [builtin_transform.setStyle(style)] on a new [BuiltinTransform]. *)
Definition setStyle (style : string) : Py Transform :=
  if builtin_style_defined style
  then mret (BuiltinTransform style)
  else raise OcioException.

(** [builtin_transform.setSrc(style)] on a new [FileTransform]. *)
Definition setSrc (src : string) : Transform := FileTransform src.

Definition create_builtin_transform (style : string) : Py Transform :=
  builtin_transform ←
    try_except (setStyle style) OcioException
      (logging_warning
         (style +:+ " style is not defined, using a placeholder " +:+
          dq +:+ "FileTransform" +:+ dq +:+ " instead!");;
       mret (setSrc style));
  mret builtin_transform.

(** [name.split(NODE_NAME_SEPARATOR)[-1]]. *)
Definition last_segment (name : string) : Py string :=
  segments ← lift_option ValueError (Str.split NODE_NAME_SEPARATOR name);
  lift_option IndexError (last segments).

Definition node_to_builtin_transform
    (graph : DiGraph) (node : string) (direction : string)
  : Py (option Transform) :=
  try_except
    (let transform_styles : list string := [] in
     let path := (node, ACES_CONFIG_REFERENCE_COLORSPACE) in
     let path :=
       if String.eqb (Str.lower direction) "forward"
       then path else (path.2, path.1) in
     path ← lift_option NetworkXNoPath (conversion_path graph path.1 path.2);
     match path with
     | [] => mret None
     | _ :: _ =>
         let verbose_path :=
           Str.join " --> "
             (PyDict.keys (PyDict.fromkeys (chain_from_iterable path))) in
         logging_debug
           ("Creating " +:+ dq +:+ "BuiltinTransform" +:+ dq +:+
            " with " +:+ verbose_path +:+ " path.");;
         transform_styles ←
           for_each path
             (λ edge transform_styles,
                let '(source, target) := edge in
                source ← last_segment source;
                target ← last_segment target;
                mret (transform_styles ++
                      [source +:+ ACES_CONFIG_BUILTIN_TRANSFORM_NAME_SEPARATOR
                              +:+ target]))
             transform_styles;
         if bool_decide (length transform_styles = 1)
         then
           transform_style ← lift_option IndexError (transform_styles !! 0);
           builtin_transform ← create_builtin_transform transform_style;
           mret (Some builtin_transform)
         else
           group_transform ←
             for_each transform_styles
               (λ transform_style group_transform,
                  builtin_transform ← create_builtin_transform transform_style;
                  mret (appendTransform group_transform builtin_transform))
               (GroupTransform []);
           mret (Some group_transform)
     end)
    NetworkXNoPath
    (logging_debug
       ("No path to " +:+ ACES_CONFIG_REFERENCE_COLORSPACE +:+
        " for " +:+ node +:+ "!");;
     mret None).

Definition node_to_colorspace
    (graph : DiGraph) (node : string) (describe : ColorspaceDescriptionStyle)
  : Py ColorSpace :=
  let ctl_transform := node_to_ctl_transform graph node in
  to_reference ← node_to_builtin_transform graph node "Forward";
  from_reference ← node_to_builtin_transform graph node "Reverse";
  mret (ctl_transform_to_colorspace
          ctl_transform describe to_reference from_reference).

(** The order of the sort key [(x['display'], x['view'])]: tuples compare
    by their first components, and by the second ones where the first are
    equal. *)
Definition view_key_leb (x y : View) : bool :=
  if String.eqb (view_display x) (view_display y)
  then Str.leb (view_view x) (view_view y)
  else Str.leb (view_display x) (view_display y).

(** One turn of the loop over the nodes of a family. *)
Definition classify_node
    (graph : DiGraph) (describe : ColorspaceDescriptionStyle)
    (additional_data : bool) (family : string) (node : string)
    (state : list ColorSpace * Classified)
  : Py (list ColorSpace * Classified) :=
  let '(family_colourspaces, vars) := state in
  if bool_decide (node ∈ [ACES_CONFIG_REFERENCE_COLORSPACE;
                          ACES_CONFIG_OUTPUT_ENCODING_COLORSPACE])
  then mret state
  else
    colorspace ← node_to_colorspace graph node describe;
    let family_colourspaces := family_colourspaces ++ [colorspace] in
    let vars :=
      if String.eqb family "output_transform"
      then
        let display :=
          beautify_display_name (genus (node_to_ctl_transform graph node)) in
        let displays := {[ display ]} ∪ cl_displays vars in
        let view := beautify_view_name (getName colorspace) in
        let views :=
          cl_views vars ++
          [ {| view_display := display;
               view_view := view;
               view_colorspace := getName colorspace |} ] in
        {| cl_colorspaces_to_ctl_transforms :=
             cl_colorspaces_to_ctl_transforms vars;
           cl_colorspaces := cl_colorspaces vars;
           cl_displays := displays;
           cl_views := views |}
      else vars in
    let vars :=
      if additional_data
      then
        {| cl_colorspaces_to_ctl_transforms :=
             cl_colorspaces_to_ctl_transforms vars ++
             [ (colorspace, node_to_ctl_transform graph node) ];
           cl_colorspaces := cl_colorspaces vars;
           cl_displays := cl_displays vars;
           cl_views := cl_views vars |}
      else vars in
    mret (family_colourspaces, vars).

(** One turn of the loop over the families. *)
Definition classify_family
    (graph : DiGraph) (describe : ColorspaceDescriptionStyle)
    (additional_data : bool) (family_name : string) (vars : Classified)
  : Py Classified :=
  let family_colourspaces : list ColorSpace := [] in
  '(family_colourspaces, vars) ←
    for_each
      (filter_nodes graph [λ x, String.eqb (family x) family_name])
      (classify_node graph describe additional_data family_name)
      (family_colourspaces, vars);
  mret {| cl_colorspaces_to_ctl_transforms :=
            cl_colorspaces_to_ctl_transforms vars;
          cl_colorspaces := cl_colorspaces vars ++ family_colourspaces;
          cl_displays := cl_displays vars;
          cl_views := cl_views vars |}.

(** The display list of [generate_config_aces], from the set of the
    displays: [sorted(list(displays))], then ['sRGB'] moved to the front
    by [displays.insert(0, displays.pop(displays.index('sRGB')))]. *)
Definition order_displays (displays : gset string) : Py (list string) :=
  let displays := PyList.sorted Str.leb (elements displays) in
  if PyList.contains "sRGB" displays
  then
    position ← lift_option ValueError (PyList.index "sRGB" displays);
    '(popped, displays) ←
      lift_option IndexError (PyList.pop position displays);
    mret (popped :: displays)
  else mret displays.

(** The body of [generate_config_aces] from the graph to the config data:
    the result is the value of [data] and of
    [colorspaces_to_ctl_transforms] before [generate_config] is called.
    The graph is what [build_aces_conversion_graph] gave for the
    discovered, classified and filtered CTL transforms. *)
Definition generate_config_aces_data
    (graph : DiGraph) (describe : ColorspaceDescriptionStyle)
    (additional_data : bool)
  : Py (ConfigData * list (ColorSpace * CTLTransform)) :=
  let scene_reference_colorspace :=
    colorspace_factory
      ("CSC - " +:+ ACES_CONFIG_REFERENCE_COLORSPACE)
      "ACES"
      ("The " +:+ dq +:+ "Academy Color Encoding System" +:+ dq +:+
       " reference colorspace.")
      None None false in
  from_reference ←
    node_to_builtin_transform
      graph ACES_CONFIG_OUTPUT_ENCODING_COLORSPACE "Reverse";
  let display_reference_colorspace :=
    colorspace_factory
      ("CSC - " +:+ ACES_CONFIG_OUTPUT_ENCODING_COLORSPACE)
      "ACES"
      ("The " +:+ dq +:+ "Output Color Encoding Specification" +:+ dq +:+
       " colorspace.")
      None from_reference false in
  let raw_colorspace :=
    colorspace_factory
      "Utility - Raw"
      "Utility"
      ("The utility " +:+ dq +:+ "Raw" +:+ dq +:+ " colorspace.")
      None None true in
  let vars :=
    {| cl_colorspaces_to_ctl_transforms := [];
       cl_colorspaces :=
         [] ++ [ scene_reference_colorspace;
                 display_reference_colorspace;
                 raw_colorspace ];
       cl_displays := ∅;
       cl_views := [] |} in
  vars ←
    for_each ["csc"; "input_transform"; "lmt"; "output_transform"]
      (classify_family graph describe additional_data) vars;
  let views := PyList.sorted view_key_leb (cl_views vars) in
  displays ← order_displays (cl_displays vars);
  let views :=
    foldl
      (λ views display,
         let view := beautify_view_name (getName raw_colorspace) in
         views ++ [ {| view_display := display;
                       view_view := view;
                       view_colorspace := getName raw_colorspace |} ])
      views displays in
  let data :=
    {| description :=
         "The " +:+ dq +:+ "Academy Color Encoding System" +:+ dq +:+
         " reference config.";
       roles := {[ ROLE_SCENE_LINEAR := "CSC - ACEScg" ]};
       colorspaces := cl_colorspaces vars;
       views := views;
       active_displays := displays;
       active_views :=
         PyDict.keys (PyDict.fromkeys (view_view <$> views));
       file_rules :=
         [ {| rule_name := "Default"; rule_colorspace := "CSC - ACEScg" |} ];
       profile_version := 2 |} in
  mret (data, cl_colorspaces_to_ctl_transforms vars).

Definition generate_config_aces
    (graph : DiGraph) (config_name : option string) (validate : bool)
    (describe : ColorspaceDescriptionStyle) (additional_data : bool)
  : Py Generated :=
  '(data, colorspaces_to_ctl_transforms) ←
    generate_config_aces_data graph describe additional_data;
  match generate_config data config_name validate with
  | inl e => raise e
  | inr config =>
      if additional_data
      then mret (ConfigAndData config data colorspaces_to_ctl_transforms)
      else mret (ConfigOnly config)
  end.

End analytical.

(** ** The name beautifier *)

Module Re.

(** One position of a pattern. *)
Inductive atom : Type :=
| Literal (c : ascii)
| AnyChar.

(** The patterns of the substitution rules, read in the fragment of
    Python's regular expressions that they are written in: a backslash
    makes the next character stand for itself, a dot stands for any
    character but a new line, any other character stands for itself. *)
Fixpoint parse (pattern : string) : list atom :=
  match pattern with
  | EmptyString => []
  | String c rest =>
      if Ascii.eqb c (ascii_of_nat 92)
      then match rest with
           | EmptyString => [Literal c]
           | String c' rest' => Literal c' :: parse rest'
           end
      else if Ascii.eqb c "."
      then AnyChar :: parse rest
      else Literal c :: parse rest
  end.

Definition atom_matches (a : atom) (c : ascii) : bool :=
  match a with
  | Literal c' => Ascii.eqb c' c
  | AnyChar => negb (Ascii.eqb c (ascii_of_nat 10))
  end.

(** The pattern matches at the start of [s]. *)
Fixpoint matches (pattern : list atom) (s : string) : bool :=
  match pattern, s with
  | [], _ => true
  | _ :: _, EmptyString => false
  | a :: pattern', String c s' =>
      if atom_matches a c then matches pattern' s' else false
  end.

(** The scan of [re.sub]: the leftmost matches that do not overlap are
    replaced; [skip] counts the characters of a match found earlier that
    are still to be passed over. *)
Fixpoint sub_scan (pattern : list atom) (repl : string) (skip : nat)
    (s : string) : string :=
  match s with
  | EmptyString =>
      match pattern with
      | [] => repl
      | _ :: _ => EmptyString
      end
  | String c s' =>
      match skip with
      | S k => sub_scan pattern repl k s'
      | O =>
          if matches pattern s
          then match pattern with
               | [] => repl +:+ String c (sub_scan pattern repl 0 s')
               | _ :: _ =>
                   repl +:+ sub_scan pattern repl (length pattern - 1) s'
               end
          else String c (sub_scan pattern repl 0 s')
      end
  end.

(** [re.sub(pattern, repl, s)], for a replacement without escapes. *)
Definition sub (pattern repl s : string) : string :=
  sub_scan (parse pattern) repl 0 s.

End Re.

(** Modelled from the spec: [beautify_name] of
    [opencolorio_config_aces.config.reference.generate.config], which is not
    among the sources.  The rules are an ordered mapping of pattern to
    replacement, applied in sequence; white space around the result is
    removed, as the example of the docstring of [beautify_view_name] and of
    the testable properties of the spec has it. *)
Definition beautify_name_model (name : string) (patterns : PyDict.t string)
  : string :=
  Str.strip
    (foldl (λ name rule, Re.sub rule.1 rule.2 name) name patterns).

(** ** What the generator is to compute *)

Section reading.
Context `{Imports}.

(** The last segment of a node name. *)
Definition leaf_segment (name : string) : string :=
  default EmptyString (last (Str.split_scan NODE_NAME_SEPARATOR 0 EmptyString name)).

(** The identifier of the elementary transform of an edge. *)
Definition edge_style (edge : string * string) : string :=
  leaf_segment edge.1 +:+ ACES_CONFIG_BUILTIN_TRANSFORM_NAME_SEPARATOR
                      +:+ leaf_segment edge.2.

(** The transform of an identifier: the builtin one, or the placeholder
    whose source is the identifier. *)
Definition elementary_transform (style : string) : Transform :=
  if builtin_style_defined style
  then BuiltinTransform style
  else FileTransform style.

(** The transform chain of a path, if any: nothing without a path or for
    the empty path, the one transform of a path of one edge, the group of
    the transforms of the edges otherwise. *)
Definition chain_of_path (path : option (list (string * string)))
  : option Transform :=
  match path with
  | None => None
  | Some [] => None
  | Some [edge] => Some (elementary_transform (edge_style edge))
  | Some edges =>
      Some (GroupTransform (elementary_transform ∘ edge_style <$> edges))
  end.

(** The path that the builder asks [conversion_path] for. *)
Definition path_query (graph : DiGraph) (node direction : string)
  : option (list (string * string)) :=
  if String.eqb (Str.lower direction) "forward"
  then conversion_path graph node ACES_CONFIG_REFERENCE_COLORSPACE
  else conversion_path graph ACES_CONFIG_REFERENCE_COLORSPACE node.

(** The identifier that a transform made for one edge refers to. *)
Definition transform_identifier (transform : Transform) : option string :=
  match transform with
  | BuiltinTransform style => Some style
  | FileTransform src => Some src
  | GroupTransform _ => None
  end.

(** The nodes that the classification loop does not skip: all but the two
    references. *)
Definition kept (nodes : list string) : list string :=
  filter
    (λ node, node ∉ [ACES_CONFIG_REFERENCE_COLORSPACE;
                     ACES_CONFIG_OUTPUT_ENCODING_COLORSPACE])
    nodes.

(** The nodes of a family that the classification loop classifies. *)
Definition classified_nodes (graph : DiGraph) (family_name : string)
  : list string :=
  kept (filter_nodes graph [λ x, String.eqb (family x) family_name]).

(** The colorspace of a node, from the paths between the node and
    [ACES_CONFIG_REFERENCE_COLORSPACE]. *)
Definition colorspace_of_node
    (graph : DiGraph) (describe : ColorspaceDescriptionStyle) (node : string)
  : ColorSpace :=
  ctl_transform_to_colorspace
    (node_to_ctl_transform graph node) describe
    (chain_of_path (conversion_path graph node ACES_CONFIG_REFERENCE_COLORSPACE))
    (chain_of_path (conversion_path graph ACES_CONFIG_REFERENCE_COLORSPACE node)).

(** The view of a node of the output family. *)
Definition view_of_node
    (graph : DiGraph) (describe : ColorspaceDescriptionStyle) (node : string)
  : View :=
  let colorspace := colorspace_of_node graph describe node in
  {| view_display :=
       beautify_display_name (genus (node_to_ctl_transform graph node));
     view_view := beautify_view_name (getName colorspace);
     view_colorspace := getName colorspace |}.

Definition families : list string :=
  ["csc"; "input_transform"; "lmt"; "output_transform"].

(** The item of a node in the dict of the colorspaces and their CTL
    transforms. *)
Definition item_of_node
    (graph : DiGraph) (describe : ColorspaceDescriptionStyle) (node : string)
  : ColorSpace * CTLTransform :=
  (colorspace_of_node graph describe node, node_to_ctl_transform graph node).

(** The colorspaces of the classified nodes, family after family. *)
Definition classified_colorspaces
    (graph : DiGraph) (describe : ColorspaceDescriptionStyle)
  : list ColorSpace :=
  family_name ← families;
  colorspace_of_node graph describe <$> classified_nodes graph family_name.

Definition classified_items
    (graph : DiGraph) (describe : ColorspaceDescriptionStyle)
  : list (ColorSpace * CTLTransform) :=
  family_name ← families;
  item_of_node graph describe <$> classified_nodes graph family_name.

(** The views of the nodes of the output family, before they are
    sorted. *)
Definition classified_views
    (graph : DiGraph) (describe : ColorspaceDescriptionStyle) : list View :=
  view_of_node graph describe <$> classified_nodes graph "output_transform".

(** The set of the displays of these views. *)
Definition classified_displays
    (graph : DiGraph) (describe : ColorspaceDescriptionStyle) : gset string :=
  list_to_set (view_display <$> classified_views graph describe).

(** The three colorspaces that come first. *)
Definition scene_reference_colorspace : ColorSpace :=
  {| getName := "CSC - " +:+ ACES_CONFIG_REFERENCE_COLORSPACE;
     getFamily := "ACES";
     getDescription :=
       "The " +:+ dq +:+ "Academy Color Encoding System" +:+ dq +:+
       " reference colorspace.";
     to_reference_transform := None;
     from_reference_transform := None;
     isData := false |}.

Definition display_reference_colorspace (graph : DiGraph) : ColorSpace :=
  {| getName := "CSC - " +:+ ACES_CONFIG_OUTPUT_ENCODING_COLORSPACE;
     getFamily := "ACES";
     getDescription :=
       "The " +:+ dq +:+ "Output Color Encoding Specification" +:+ dq +:+
       " colorspace.";
     to_reference_transform := None;
     from_reference_transform :=
       chain_of_path
         (conversion_path graph ACES_CONFIG_REFERENCE_COLORSPACE
                          ACES_CONFIG_OUTPUT_ENCODING_COLORSPACE);
     isData := false |}.

Definition raw_colorspace : ColorSpace :=
  {| getName := "Utility - Raw";
     getFamily := "Utility";
     getDescription :=
       "The utility " +:+ dq +:+ "Raw" +:+ dq +:+ " colorspace.";
     to_reference_transform := None;
     from_reference_transform := None;
     isData := true |}.

(** The view of the raw colorspace on a display. *)
Definition raw_view (display : string) : View :=
  {| view_display := display;
     view_view := beautify_view_name "Utility - Raw";
     view_colorspace := "Utility - Raw" |}.

(** The displays in ascending order, with "sRGB" moved to the front. *)
Definition pinned_displays (displays : gset string) : list string :=
  let ascending := PyList.sorted Str.leb (elements displays) in
  if bool_decide ("sRGB" ∈ displays)
  then "sRGB" :: filter (λ display, display ≠ "sRGB") ascending
  else ascending.

(** The views of the config: the classified ones sorted, then the raw view
    of each display. *)
Definition config_views
    (graph : DiGraph) (describe : ColorspaceDescriptionStyle) : list View :=
  PyList.sorted view_key_leb (classified_views graph describe) ++
  (raw_view <$> pinned_displays (classified_displays graph describe)).

(** The variables of the classification loop once the nodes [nodes] of the
    family [family_name] are classified, from their values [vars] at the
    start of the family. *)
Definition classified_upto
    (graph : DiGraph) (describe : ColorspaceDescriptionStyle)
    (additional_data : bool) (family_name : string) (vars : Classified)
    (nodes : list string)
  : list ColorSpace * Classified :=
  let output := String.eqb family_name "output_transform" in
  (colorspace_of_node graph describe <$> nodes,
   {| cl_colorspaces_to_ctl_transforms :=
        cl_colorspaces_to_ctl_transforms vars ++
        (if additional_data
         then item_of_node graph describe <$> nodes else []);
      cl_colorspaces := cl_colorspaces vars;
      cl_displays :=
        list_to_set
          (if output
           then view_display <$> (view_of_node graph describe <$> nodes)
           else []) ∪ cl_displays vars;
      cl_views :=
        cl_views vars ++
        (if output then view_of_node graph describe <$> nodes else []) |}).

(** The variables at the end of a family. *)
Definition classified_family
    (graph : DiGraph) (describe : ColorspaceDescriptionStyle)
    (additional_data : bool) (family_name : string) (vars : Classified)
  : Classified :=
  let '(family_colourspaces, vars) :=
    classified_upto graph describe additional_data family_name vars
      (classified_nodes graph family_name) in
  {| cl_colorspaces_to_ctl_transforms := cl_colorspaces_to_ctl_transforms vars;
     cl_colorspaces := cl_colorspaces vars ++ family_colourspaces;
     cl_displays := cl_displays vars;
     cl_views := cl_views vars |}.

(** The distinct elements of a list, in the order of their first
    occurrences. *)
Fixpoint first_seen (l : list string) : list string :=
  match l with
  | [] => []
  | x :: l' => x :: filter (λ y, y ≠ x) (first_seen l')
  end.

(** The config data of a graph. *)
Definition config_data
    (graph : DiGraph) (describe : ColorspaceDescriptionStyle) : ConfigData :=
  {| description :=
       "The " +:+ dq +:+ "Academy Color Encoding System" +:+ dq +:+
       " reference config.";
     roles := {[ ROLE_SCENE_LINEAR := "CSC - ACEScg" ]};
     colorspaces :=
       [ scene_reference_colorspace;
         display_reference_colorspace graph;
         raw_colorspace ] ++ classified_colorspaces graph describe;
     views := config_views graph describe;
     active_displays :=
       pinned_displays (classified_displays graph describe);
     active_views := first_seen (view_view <$> config_views graph describe);
     file_rules :=
       [ {| rule_name := "Default"; rule_colorspace := "CSC - ACEScg" |} ];
     profile_version := 2 |}.

End reading.

(** ** A sample of the imports

    Graphs given by their nodes and edges, to run the generator on. *)

Module Sample.

Record CTL : Type := {
  ctl_name : string;
  ctl_family : string;
  ctl_genus : string;
}.

Record Graph : Type := {
  nodes : list (string * CTL);
  edges : list (string * string);
}.

(** A walk of [k] edges from [source] to [target], the first one in the
    order of the edges. *)
Fixpoint walk (es : list (string * string)) (k : nat) (source target : string)
  : option (list (string * string)) :=
  match k with
  | O => if String.eqb source target then Some [] else None
  | S k' =>
      (fix first_walk (candidates : list (string * string)) :=
         match candidates with
         | [] => None
         | (a, b) :: rest =>
             if String.eqb a source
             then match walk es k' b target with
                  | Some path => Some ((a, b) :: path)
                  | None => first_walk rest
                  end
             else first_walk rest
         end) es
  end.

(** Modelled from the spec: [conversion_path] of
    [opencolorio_config_aces.config.reference], which is not among the
    sources.  It gives the edges of a shortest path from [source] to
    [target], always the same one for the same graph, and the no-path
    signal where there is none. *)
Definition shortest_path (graph : Graph) (source target : string)
  : option (list (string * string)) :=
  foldr
    (λ k found,
       match walk (edges graph) k source target with
       | Some path => Some path
       | None => found
       end)
    None (seq 0 (S (length (nodes graph)))).

(** Modelled from the spec: [filter_nodes], the nodes of the graph whose
    CTL transform passes every filterer, in the order of the graph. *)
Definition nodes_passing (graph : Graph) (filterers : list (CTL → bool))
  : list string :=
  fst <$> filter (λ node, forallb (λ f, f node.2) filterers = true) (nodes graph).

(** Modelled from the spec: [node_to_ctl_transform], the CTL transform
    that a node of the graph was made from. *)
Definition ctl_of_node (graph : Graph) (node : string) : CTL :=
  match list_find (λ entry, entry.1 = node) (nodes graph) with
  | Some (_, entry) => entry.2
  | None => {| ctl_name := node; ctl_family := ""; ctl_genus := "" |}
  end.

(** Modelled from the spec: [ctl_transform_to_colorspace], a colorspace
    with a name derived from the CTL transform and the transforms given. *)
Definition colorspace_of_ctl (ctl : CTL) (describe : unit)
    (to_reference from_reference : option Transform) : ColorSpace :=
  colorspace_factory
    (ctl_name ctl) (ctl_family ctl) ""
    to_reference from_reference false.

Definition imports : Imports :=
  {| NODE_NAME_SEPARATOR := "/";
     ACES_CONFIG_BUILTIN_TRANSFORM_NAME_SEPARATOR := "_to_";
     ACES_CONFIG_COLORSPACE_NAME_SEPARATOR := " - ";
     ACES_CONFIG_OUTPUT_ENCODING_COLORSPACE := "OCES";
     ACES_CONFIG_REFERENCE_COLORSPACE := "ACES2065-1";
     ROLE_SCENE_LINEAR := "scene_linear";
     DiGraph := Graph;
     CTLTransform := CTL;
     ColorspaceDescriptionStyle := unit;
     Config := ConfigData;
     family := ctl_family;
     genus := ctl_genus;
     conversion_path := shortest_path;
     filter_nodes := nodes_passing;
     node_to_ctl_transform := ctl_of_node;
     beautify_name := beautify_name_model;
     beautify_display_name := λ name, beautify_name_model name [];
     ctl_transform_to_colorspace := colorspace_of_ctl;
     builtin_style_defined := λ style, bool_decide (style = "IDENTITY");
     generate_config := λ data _ _, inr data |}.

Definition node (name colorspace_name family_name genus_name : string)
  : string * CTL :=
  (name, {| ctl_name := colorspace_name;
            ctl_family := family_name;
            ctl_genus := genus_name |}).

(** ACEScg converts to and from the reference, the reference converts to
    OCES, two output transforms hang off OCES and a look has no edge. *)
Definition graph : Graph :=
  {| nodes :=
       [ node "ACES2065-1" "ACES2065-1" "csc" "";
         node "OCES" "OCES" "csc" "";
         node "csc/ACEScg" "CSC - ACEScg" "csc" "";
         node "lmt/Orphan" "LMT - Orphan" "lmt" "";
         node "output_transform/sRGB" "Output - sRGB (100 nits) dim"
              "output_transform" "sRGB";
         node "output_transform/P3" "Output - P3 (48 nits)"
              "output_transform" "P3" ];
     edges :=
       [ ("csc/ACEScg", "ACES2065-1");
         ("ACES2065-1", "csc/ACEScg");
         ("ACES2065-1", "OCES");
         ("OCES", "output_transform/sRGB");
         ("OCES", "output_transform/P3") ] |}.

(** The same imports, with a [generate_config] that raises where it is
    asked to validate. *)
Definition validating : Imports :=
  {| NODE_NAME_SEPARATOR := "/";
     ACES_CONFIG_BUILTIN_TRANSFORM_NAME_SEPARATOR := "_to_";
     ACES_CONFIG_COLORSPACE_NAME_SEPARATOR := " - ";
     ACES_CONFIG_OUTPUT_ENCODING_COLORSPACE := "OCES";
     ACES_CONFIG_REFERENCE_COLORSPACE := "ACES2065-1";
     ROLE_SCENE_LINEAR := "scene_linear";
     DiGraph := Graph;
     CTLTransform := CTL;
     ColorspaceDescriptionStyle := unit;
     Config := ConfigData;
     family := ctl_family;
     genus := ctl_genus;
     conversion_path := shortest_path;
     filter_nodes := nodes_passing;
     node_to_ctl_transform := ctl_of_node;
     beautify_name := beautify_name_model;
     beautify_display_name := λ name, beautify_name_model name [];
     ctl_transform_to_colorspace := colorspace_of_ctl;
     builtin_style_defined := λ style, bool_decide (style = "IDENTITY");
     generate_config :=
       λ data _ validate, if validate then inl OcioException else inr data |}.

(** A graph without a node of the output family. *)
Definition scene_graph : Graph :=
  {| nodes :=
       [ node "ACES2065-1" "ACES2065-1" "csc" "";
         node "OCES" "OCES" "csc" "";
         node "csc/ACEScg" "CSC - ACEScg" "csc" "" ];
     edges :=
       [ ("csc/ACEScg", "ACES2065-1");
         ("ACES2065-1", "csc/ACEScg") ] |}.


End Sample.

(** ** Predicates *)

(** The computation returns, whatever the log it starts from, a value that
    satisfies [P], and only adds to the log. *)
Definition ensures {A} (m : Py A) (P : A → Prop) : Prop :=
  ∀ l, ∃ a l', m l = (Return a, l ++ l') ∧ P a.

(** The relation that a boolean comparison decides. *)
Definition holds {A} (le : A → A → bool) : relation A := λ x y, le x y = true.

Definition string_le : relation string := holds Str.leb.
Definition string_lt : relation string := holds Str.ltb.

(** The computation returns the value [a], whatever the log it starts from,
    and adds exactly [records] to the log. *)
Definition writes {A} (m : Py A) (a : A) (records : list log_record) : Prop :=
  ∀ l, m l = (Return a, l ++ records).

(** ** The records of the builder *)

Section records.
Context `{Imports}.

(** The warning for a style that is not defined. *)
Definition style_warning (style : string) : log_record :=
  (WARNING,
   style +:+ " style is not defined, using a placeholder " +:+
   dq +:+ "FileTransform" +:+ dq +:+ " instead!").

(** The warnings for the styles of a chain, in their order. *)
Definition style_warnings (styles : list string) : list log_record :=
  flat_map
    (λ style, if builtin_style_defined style then [] else [style_warning style])
    styles.

(** The record that announces the chain of a path. *)
Definition creating_record (path : list (string * string)) : log_record :=
  (DEBUG,
   "Creating " +:+ dq +:+ "BuiltinTransform" +:+ dq +:+ " with " +:+
   Str.join " --> " (PyDict.keys (PyDict.fromkeys (chain_from_iterable path))) +:+
   " path.").

(** The record for a node without a path. *)
Definition no_path_record (node : string) : log_record :=
  (DEBUG,
   "No path to " +:+ ACES_CONFIG_REFERENCE_COLORSPACE +:+
   " for " +:+ node +:+ "!").

End records.

(** * Reasoning about computations *)

Section ensures.
Context {A B : Type}.
Implicit Types (m : Py A) (k : A → Py B) (P : A → Prop) (Q : B → Prop).

Lemma ensures_ret (a : A) P : P a → ensures (mret a) P.
Proof. intros Ha l. exists a, []. by rewrite app_nil_r. Qed.

Lemma ensures_ret_eq (a : A) : ensures (mret a) (λ r, r = a).
Proof. by apply ensures_ret. Qed.

Lemma ensures_bind m k P Q :
  ensures m P → (∀ a, P a → ensures (k a) Q) → ensures (m ≫= k) Q.
Proof.
  intros Hm Hk l. destruct (Hm l) as (a & l1 & Eq1 & Ha).
  destruct (Hk a Ha (l ++ l1)) as (b & l2 & Eq2 & Hb).
  exists b, (l1 ++ l2). unfold mbind, Py_bind, bind.
  by rewrite Eq1, Eq2, (assoc_L (++)).
Qed.

Lemma ensures_weaken m P (P' : A → Prop) :
  ensures m P → (∀ a, P a → P' a) → ensures m P'.
Proof.
  intros Hm HP l. destruct (Hm l) as (a & l1 & Eq1 & Ha). eauto 6.
Qed.

Lemma ensures_try m (e : exn) (handler : Py A) P :
  ensures m P → ensures (try_except m e handler) P.
Proof.
  intros Hm l. destruct (Hm l) as (a & l1 & Eq1 & Ha).
  exists a, l1. unfold try_except. by rewrite Eq1.
Qed.

Lemma ensures_lift_option (e : exn) (o : option A) (a : A) :
  o = Some a → ensures (lift_option e o) (λ r, r = a).
Proof. intros ->. by apply ensures_ret. Qed.

End ensures.

Lemma ensures_for_each {A S : Type} (xs : list A) (body : A → S → Py S)
    (f : S → A → S) (s : S) :
  (∀ x s', ensures (body x s') (λ r, r = f s' x)) →
  ensures (for_each xs body s) (λ r, r = foldl f s xs).
Proof.
  intros Hbody. revert s. induction xs as [|x xs IH]; intros s; simpl.
  - by apply ensures_ret.
  - eapply ensures_bind; [apply Hbody|]. intros s' ->. apply IH.
Qed.

Lemma ensures_debug (msg : string) : ensures (logging_debug msg) (λ _, True).
Proof. intros l. by exists tt, [(DEBUG, msg)]. Qed.

Lemma ensures_warning (msg : string) : ensures (logging_warning msg) (λ _, True).
Proof. intros l. by exists tt, [(WARNING, msg)]. Qed.

Lemma foldl_snoc_fmap {A B} (f : A → B) (l : list A) (acc : list B) :
  foldl (λ acc x, acc ++ [f x]) acc l = acc ++ (f <$> l).
Proof.
  revert acc. induction l as [|x l IH]; intros acc; simpl.
  - by rewrite app_nil_r.
  - by rewrite IH, <-(assoc_L (++)).
Qed.

(** ** Strings *)

Lemma split_scan_last (sep : string) (skip : nat) (piece s : string) :
  is_Some (last (Str.split_scan sep skip piece s)).
Proof.
  revert skip piece. induction s as [|c s IH]; intros skip piece; simpl.
  - by eexists.
  - destruct skip as [|k]; [|apply IH].
    destruct (Str.startswith sep (String c s)); [|apply IH].
    destruct (IH (String.length sep - 1) EmptyString) as [x Hx].
    exists x. by rewrite last_cons, Hx.
Qed.

(** * The builtin transform builder *)

Section builder.
Context `{Imports}.

Lemma create_builtin_transform_value (style : string) :
  ensures (create_builtin_transform style)
          (λ transform, transform = elementary_transform style).
Proof.
  intros l. unfold create_builtin_transform, elementary_transform, setStyle.
  unfold mbind, Py_bind, bind, try_except.
  destruct (builtin_style_defined style); simpl.
  - exists (BuiltinTransform style), []. by rewrite app_nil_r.
  - by eexists _, [_].
Qed.

Lemma last_segment_value (name : string) :
  NODE_NAME_SEPARATOR ≠ EmptyString →
  ensures (last_segment name) (λ segment, segment = leaf_segment name).
Proof.
  intros Hsep. unfold last_segment, leaf_segment, Str.split.
  destruct NODE_NAME_SEPARATOR as [|c sep] eqn:Esep; [done|].
  eapply ensures_bind; [by apply ensures_lift_option|].
  intros segments ->.
  destruct (split_scan_last (String c sep) 0 EmptyString name) as [x Hx].
  eapply ensures_weaken; [by apply ensures_lift_option|].
  intros segment ->. by rewrite Hx.
Qed.

Lemma transform_styles_value (path : list (string * string)) :
  NODE_NAME_SEPARATOR ≠ EmptyString →
  ensures
    (for_each path
       (λ edge transform_styles,
          let '(source, target) := edge in
          source ← last_segment source;
          target ← last_segment target;
          mret (transform_styles ++
                [source +:+ ACES_CONFIG_BUILTIN_TRANSFORM_NAME_SEPARATOR
                        +:+ target]))
       [])
    (λ styles, styles = edge_style <$> path).
Proof.
  intros Hsep. eapply ensures_weaken.
  - apply (ensures_for_each _ _ (λ styles edge, styles ++ [edge_style edge])).
    intros [source target] styles.
    eapply ensures_bind; [by apply last_segment_value|]. intros ? ->.
    eapply ensures_bind; [by apply last_segment_value|]. intros ? ->.
    by apply ensures_ret.
  - intros styles ->. by rewrite foldl_snoc_fmap.
Qed.

Lemma foldl_appendTransform (styles : list string) (acc : list Transform) :
  foldl (λ group style, appendTransform group (elementary_transform style))
        (GroupTransform acc) styles
  = GroupTransform (acc ++ (elementary_transform <$> styles)).
Proof.
  revert acc. induction styles as [|style styles IH]; intros acc; simpl.
  - by rewrite app_nil_r.
  - by rewrite IH, <-(assoc_L (++)).
Qed.

Lemma group_transform_value (styles : list string) :
  ensures
    (for_each styles
       (λ transform_style group_transform,
          builtin_transform ← create_builtin_transform transform_style;
          mret (appendTransform group_transform builtin_transform))
       (GroupTransform []))
    (λ group, group = GroupTransform (elementary_transform <$> styles)).
Proof.
  eapply ensures_weaken.
  - apply (ensures_for_each _ _
             (λ group style, appendTransform group (elementary_transform style))).
    intros style group.
    eapply ensures_bind; [apply create_builtin_transform_value|].
    intros ? ->. by apply ensures_ret.
  - intros group ->. by rewrite foldl_appendTransform.
Qed.

(** The builder returns the chain of the path it asked for, and nothing
    where there is no path; it never raises. *)
Lemma node_to_builtin_transform_value
    (graph : DiGraph) (node direction : string) :
  NODE_NAME_SEPARATOR ≠ EmptyString →
  ensures (node_to_builtin_transform graph node direction)
          (λ r, r = chain_of_path (path_query graph node direction)).
Proof.
  intros Hsep. unfold node_to_builtin_transform, path_query.
  set (ends := if String.eqb (Str.lower direction) "forward"
               then (node, ACES_CONFIG_REFERENCE_COLORSPACE)
               else ((node, ACES_CONFIG_REFERENCE_COLORSPACE).2,
                     (node, ACES_CONFIG_REFERENCE_COLORSPACE).1)).
  assert (Hq : (if String.eqb (Str.lower direction) "forward"
                then conversion_path graph node ACES_CONFIG_REFERENCE_COLORSPACE
                else conversion_path graph ACES_CONFIG_REFERENCE_COLORSPACE node)
               = conversion_path graph ends.1 ends.2).
  { unfold ends. by destruct (String.eqb _ _). }
  rewrite Hq. clear Hq. generalize ends. clear ends. intros ends.
  destruct (conversion_path graph ends.1 ends.2) as [path|] eqn:Epath.
  - apply ensures_try. simpl lift_option.
    eapply ensures_bind; [apply ensures_ret_eq|]. intros ? ->.
    destruct path as [|edge1 [|edge2 path]].
    + by apply ensures_ret.
    + eapply ensures_bind; [apply ensures_debug|]. intros _ _.
      eapply ensures_bind; [by apply transform_styles_value|]. intros ? ->.
      simpl. eapply ensures_bind; [apply ensures_ret_eq|]. intros ? ->.
      eapply ensures_bind; [apply create_builtin_transform_value|].
      intros ? ->. by apply ensures_ret.
    + eapply ensures_bind; [apply ensures_debug|]. intros _ _.
      eapply ensures_bind; [by apply transform_styles_value|]. intros ? ->.
      rewrite bool_decide_eq_false_2 by (simpl; lia).
      eapply ensures_bind; [apply group_transform_value|].
      intros ? ->. apply ensures_ret. simpl.
      by rewrite <-!list_fmap_compose.
  - intros l. unfold try_except, mbind, Py_bind, bind. simpl.
    by eexists None, [_].
Qed.

Lemma node_to_colorspace_value
    (graph : DiGraph) (node : string) (describe : ColorspaceDescriptionStyle) :
  NODE_NAME_SEPARATOR ≠ EmptyString →
  ensures (node_to_colorspace graph node describe)
          (λ colorspace, colorspace = colorspace_of_node graph describe node).
Proof.
  intros Hsep. unfold node_to_colorspace.
  eapply ensures_bind; [by apply node_to_builtin_transform_value|].
  intros ? ->.
  eapply ensures_bind; [by apply node_to_builtin_transform_value|].
  intros ? ->. by apply ensures_ret.
Qed.

End builder.

(** * The order of strings and sorting *)

Lemma nat_of_ascii_inj (x y : ascii) : nat_of_ascii x = nat_of_ascii y → x = y.
Proof.
  intros Heq. rewrite <-(ascii_nat_embedding x), <-(ascii_nat_embedding y).
  by rewrite Heq.
Qed.

#[global] Instance string_le_total : Total string_le.
Proof.
  intros a. induction a as [|x a IH]; intros [|y b]; unfold string_le, holds; simpl; auto.
  destruct (Nat.ltb_spec (nat_of_ascii x) (nat_of_ascii y)),
           (Nat.ltb_spec (nat_of_ascii y) (nat_of_ascii x)); auto; try lia.
  apply IH.
Qed.

#[global] Instance string_le_trans : Transitive string_le.
Proof.
  intros a. induction a as [|x a IH]; intros [|y b] [|z c];
    unfold string_le, holds; simpl; auto; try discriminate.
  destruct (Nat.ltb_spec (nat_of_ascii x) (nat_of_ascii y)),
           (Nat.ltb_spec (nat_of_ascii y) (nat_of_ascii x)),
           (Nat.ltb_spec (nat_of_ascii y) (nat_of_ascii z)),
           (Nat.ltb_spec (nat_of_ascii z) (nat_of_ascii y)),
           (Nat.ltb_spec (nat_of_ascii x) (nat_of_ascii z)),
           (Nat.ltb_spec (nat_of_ascii z) (nat_of_ascii x));
    auto; try discriminate; try lia.
  apply IH.
Qed.

#[global] Instance string_le_antisymm : AntiSymm (=) string_le.
Proof.
  intros a. induction a as [|x a IH]; intros [|y b];
    unfold string_le, holds; simpl; auto; try discriminate.
  destruct (Nat.ltb_spec (nat_of_ascii x) (nat_of_ascii y)),
           (Nat.ltb_spec (nat_of_ascii y) (nat_of_ascii x));
    try discriminate; try lia.
  intros Hab Hba. f_equal; [apply nat_of_ascii_inj; lia | by apply IH].
Qed.

Lemma string_lt_le_ne (a b : string) : string_lt a b ↔ string_le a b ∧ a ≠ b.
Proof.
  unfold string_lt, holds, Str.ltb. rewrite negb_true_iff. split.
  - intros Hba. split.
    + destruct (total string_le a b) as [|Hba']; [done|].
      unfold string_le, holds in Hba'. congruence.
    + intros ->. destruct (total string_le b b) as [Hbb|Hbb];
        unfold string_le, holds in Hbb; congruence.
  - intros [Hab Hne]. destruct (Str.leb b a) eqn:Hba; [|done].
    destruct Hne. by apply (anti_symm string_le).
Qed.

Section sorted.
Context {A : Type} (le : A → A → bool).
Abbreviation R := (holds le).

Lemma insert_sorted_Permutation (x : A) (l : list A) :
  PyList.insert_sorted le x l ≡ₚ x :: l.
Proof.
  induction l as [|y l IH]; simpl; [done|].
  destruct (le x y); [done|]. by rewrite IH, Permutation_swap.
Qed.

Lemma sorted_Permutation (l : list A) : PyList.sorted le l ≡ₚ l.
Proof.
  induction l as [|x l IH]; simpl; [done|].
  by rewrite insert_sorted_Permutation, IH.
Qed.

Lemma insert_sorted_Sorted `{!Total R} (x : A) (l : list A) :
  Sorted R l → Sorted R (PyList.insert_sorted le x l).
Proof.
  induction 1 as [|y l Hl IH Hhd]; simpl.
  - by repeat constructor.
  - destruct (le x y) eqn:Hxy.
    + by repeat constructor.
    + constructor; [done|].
      assert (R y x) as Hyx.
      { destruct (total R x y) as [Hc|Hc]; [|done]. unfold holds in Hc. congruence. }
      destruct Hhd as [|z l Hyz]; simpl; [by constructor|].
      destruct (le x z); by constructor.
Qed.

Lemma sorted_Sorted `{!Total R} (l : list A) : Sorted R (PyList.sorted le l).
Proof.
  induction l as [|x l IH]; simpl; [constructor|].
  by apply insert_sorted_Sorted.
Qed.
End sorted.

Lemma StronglySorted_filter {A} (R : relation A) (P : A → Prop)
    `{∀ x, Decision (P x)} (l : list A) :
  StronglySorted R l → StronglySorted R (filter P l).
Proof.
  induction 1 as [|x l Hl IH Hx]; [constructor|].
  rewrite filter_cons. destruct (decide (P x)); [|done].
  constructor; [done|]. apply Forall_forall. intros y Hy.
  apply list_elem_of_filter in Hy as [_ Hy]. by eapply Forall_forall in Hx.
Qed.

Lemma StronglySorted_strict (l : list string) :
  NoDup l → StronglySorted string_le l → StronglySorted string_lt l.
Proof.
  intros Hnd Hs. induction Hs as [|x l Hl IH Hx]; [constructor|].
  apply NoDup_cons in Hnd as [Hnotin Hnd].
  constructor; [by apply IH|].
  apply Forall_forall. intros y Hy. apply string_lt_le_ne. split.
  - by eapply Forall_forall in Hx.
  - by intros ->.
Qed.

Lemma filter_ne_not_elem (l : list string) (x : string) :
  x ∉ l → filter (λ y, y ≠ x) l = l.
Proof.
  induction l as [|b l IH]; [done|]. intros [Hne Hnotin]%not_elem_of_cons.
  rewrite filter_cons_True by done. f_equal. by apply IH.
Qed.

Lemma delete_filter_ne (l : list string) (i : nat) (x : string) :
  NoDup l → l !! i = Some x → delete i l = filter (λ y, y ≠ x) l.
Proof.
  intros Hnd. revert i. induction Hnd as [|a l Hnotin Hnd IH]; intros i Hi.
  - done.
  - destruct i as [|i]; simpl in *.
    + injection Hi as ->. rewrite filter_cons_False by (intros Hc; by apply Hc).
      by rewrite filter_ne_not_elem.
    + rewrite filter_cons_True.
      * f_equal. by apply IH.
      * intros ->. apply Hnotin. by eapply list_elem_of_lookup_2.
Qed.

(** * The display list *)

Lemma sorted_displays_elem_of (displays : gset string) (display : string) :
  display ∈ PyList.sorted Str.leb (elements displays) ↔ display ∈ displays.
Proof. by rewrite sorted_Permutation, elem_of_elements. Qed.

Lemma sorted_displays_NoDup (displays : gset string) :
  NoDup (PyList.sorted Str.leb (elements displays)).
Proof. rewrite sorted_Permutation. apply NoDup_elements. Qed.

Lemma sorted_displays_StronglySorted (displays : gset string) :
  StronglySorted string_lt (PyList.sorted Str.leb (elements displays)).
Proof.
  apply StronglySorted_strict; [apply sorted_displays_NoDup|].
  apply (Sorted_StronglySorted string_le).
  apply (sorted_Sorted Str.leb).
Qed.

Lemma order_displays_value (displays : gset string) :
  ensures (order_displays displays) (λ r, r = pinned_displays displays).
Proof.
  unfold order_displays, pinned_displays, PyList.contains.
  set (ascending := PyList.sorted Str.leb (elements displays)).
  rewrite (bool_decide_ext _ ("sRGB" ∈ displays))
    by apply sorted_displays_elem_of.
  destruct (bool_decide_reflect ("sRGB" ∈ displays)) as [Hin|Hnotin];
    [|apply ensures_ret_eq].
  apply sorted_displays_elem_of in Hin. fold ascending in Hin.
  destruct (list_find_elem_of (λ y, y = "sRGB") ascending "sRGB" Hin eq_refl)
    as [[i y] Hfind].
  pose proof Hfind as (Hi & -> & _)%list_find_Some.
  unfold PyList.index, PyList.pop. rewrite Hfind. simpl.
  eapply ensures_bind; [apply ensures_ret_eq|]. intros ? ->. rewrite Hi.
  eapply ensures_bind; [apply ensures_ret_eq|]. intros ? ->.
  apply ensures_ret. f_equal.
  apply delete_filter_ne; [apply sorted_displays_NoDup | done].
Qed.

(** * The classification loop *)

Lemma ensures_for_each_inv {A S : Type} (I : list A → S → Prop)
    (xs : list A) (body : A → S → Py S) (s : S) :
  I [] s →
  (∀ seen x s', I seen s' → ensures (body x s') (I (seen ++ [x]))) →
  ensures (for_each xs body s) (I xs).
Proof.
  intros Hs Hbody.
  cut (∀ seen s', I seen s' → ensures (for_each xs body s') (I (seen ++ xs))).
  { intros Hcut. by apply (Hcut []). }
  induction xs as [|x xs IH]; intros seen s' Hseen; simpl.
  - apply ensures_ret. by rewrite app_nil_r.
  - eapply ensures_bind; [by apply Hbody|]. intros s'' Hs''.
    rewrite (cons_middle x seen xs), (assoc_L (++)). by apply IH.
Qed.

Section classification.
Context `{Imports}.
Context (graph : DiGraph) (describe : ColorspaceDescriptionStyle)
        (additional_data : bool).
Hypothesis separator : NODE_NAME_SEPARATOR ≠ EmptyString.

Lemma classify_node_value (family_name node : string) (vars : Classified)
    (seen : list string) :
  ensures
    (classify_node graph describe additional_data family_name node
       (classified_upto graph describe additional_data family_name vars
          (kept seen)))
    (λ r, r = classified_upto graph describe additional_data family_name vars
                (kept (seen ++ [node]))).
Proof.
  unfold kept. rewrite filter_app, filter_cons, filter_nil.
  unfold classify_node, classified_upto.
  destruct (bool_decide_reflect
              (node ∈ [ACES_CONFIG_REFERENCE_COLORSPACE;
                       ACES_CONFIG_OUTPUT_ENCODING_COLORSPACE])) as [Hin|Hnotin].
  - rewrite decide_False by (intros Hc; by apply Hc).
    rewrite app_nil_r. apply ensures_ret_eq.
  - rewrite decide_True by done.
    eapply ensures_bind; [by apply node_to_colorspace_value|]. intros ? ->.
    apply ensures_ret. rewrite fmap_app. f_equal.
    destruct (String.eqb family_name "output_transform"), additional_data;
      simpl; f_equal;
      rewrite ?fmap_app, ?app_nil_r, <-?(assoc_L (++)); try done.
    all: rewrite ?list_to_set_app_L; simpl.
    all: apply set_eq; intros display;
      rewrite !elem_of_union, elem_of_singleton, elem_of_empty; tauto.
Qed.

Lemma classify_family_value (family_name : string) (vars : Classified) :
  ensures
    (classify_family graph describe additional_data family_name vars)
    (λ r, r = classified_family graph describe additional_data family_name vars).
Proof.
  unfold classify_family, classified_family.
  eapply ensures_bind.
  - apply (ensures_for_each_inv
             (λ seen state,
                state = classified_upto graph describe additional_data
                          family_name vars (kept seen))).
    + unfold classified_upto, kept. rewrite filter_nil.
      destruct vars, (String.eqb family_name "output_transform"),
        additional_data; simpl; f_equal; rewrite ?app_nil_r; f_equal;
        by rewrite (left_id_L ∅ (∪)).
    + intros seen node state ->. apply classify_node_value.
  - intros ? ->. apply ensures_ret_eq.
Qed.

End classification.

(** * Keys in the order they were first seen *)

Lemma keys_setitem {V} (k : string) (v : V) (d : PyDict.t V) :
  PyDict.keys (PyDict.setitem k v d)
  = if decide (k ∈ PyDict.keys d) then PyDict.keys d else PyDict.keys d ++ [k].
Proof.
  unfold PyDict.keys. induction d as [|[k' v'] d IH].
  - rewrite decide_False; [done|]. apply not_elem_of_nil.
  - cbn [PyDict.setitem]. rewrite !fmap_cons. cbn [fst].
    destruct (String.eqb_spec k' k) as [->|Hne].
    + rewrite decide_True; [done|]. apply list_elem_of_here.
    + rewrite fmap_cons, IH. cbn [fst].
      destruct (decide (k ∈ d.*1)) as [Hin|Hnotin].
      * rewrite decide_True; [done|]. by apply list_elem_of_further.
      * rewrite decide_False; [done|].
        intros [?|?]%elem_of_cons; congruence.
Qed.

Lemma keys_foldl_setitem (l : list string) (d : PyDict.t unit) :
  PyDict.keys (foldl (λ d k, PyDict.setitem k tt d) d l)
  = PyDict.keys d ++ filter (λ y, y ∉ PyDict.keys d) (first_seen l).
Proof.
  revert d. induction l as [|x l IH]; intros d; simpl.
  - by rewrite filter_nil, app_nil_r.
  - rewrite IH, keys_setitem, filter_cons.
    destruct (decide (x ∈ PyDict.keys d)) as [Hin|Hnotin].
    + rewrite decide_False by (intros Hc; by apply Hc).
      f_equal. rewrite list_filter_filter. apply list_filter_iff.
      intros y. split; [|tauto]. intros Hy. split; [done|]. by intros ->.
    + rewrite decide_True by done.
      rewrite <-(assoc_L (++)). simpl. do 2 f_equal.
      rewrite list_filter_filter. apply list_filter_iff.
      intros y. rewrite elem_of_app, list_elem_of_singleton. tauto.
Qed.

Lemma keys_fromkeys (l : list string) :
  PyDict.keys (PyDict.fromkeys l) = first_seen l.
Proof.
  unfold PyDict.fromkeys. rewrite keys_foldl_setitem.
  change (PyDict.keys []) with (@nil string). rewrite app_nil_l.
  induction (first_seen l) as [|y ys IH]; [done|].
  rewrite filter_cons_True by apply not_elem_of_nil. by rewrite IH.
Qed.

(** * The config data *)

Section config_data.
Context `{Imports}.
Context (graph : DiGraph) (describe : ColorspaceDescriptionStyle)
        (additional_data : bool).
Hypothesis separator : NODE_NAME_SEPARATOR ≠ EmptyString.

Lemma raw_views_value (views0 : list View) (displays : list string) :
  foldl
    (λ views display,
       views ++
       [ {| view_display := display;
            view_view :=
              beautify_view_name
                (getName
                   (colorspace_factory "Utility - Raw" "Utility"
                      ("The utility " +:+ dq +:+ "Raw" +:+ dq +:+ " colorspace.")
                      None None true));
            view_colorspace :=
              getName
                (colorspace_factory "Utility - Raw" "Utility"
                   ("The utility " +:+ dq +:+ "Raw" +:+ dq +:+ " colorspace.")
                   None None true) |} ])
    views0 displays
  = views0 ++ (raw_view <$> displays).
Proof. apply (foldl_snoc_fmap raw_view). Qed.

Lemma classified_family_colorspaces (family_name : string) (vars : Classified) :
  cl_colorspaces
    (classified_family graph describe additional_data family_name vars)
  = cl_colorspaces vars ++
    (colorspace_of_node graph describe <$> classified_nodes graph family_name).
Proof. done. Qed.

Lemma classified_family_views (family_name : string) (vars : Classified) :
  cl_views
    (classified_family graph describe additional_data family_name vars)
  = cl_views vars ++
    (if String.eqb family_name "output_transform"
     then view_of_node graph describe <$> classified_nodes graph family_name
     else []).
Proof. done. Qed.

Lemma classified_family_displays (family_name : string) (vars : Classified) :
  cl_displays
    (classified_family graph describe additional_data family_name vars)
  = list_to_set
      (if String.eqb family_name "output_transform"
       then view_display <$>
            (view_of_node graph describe <$> classified_nodes graph family_name)
       else []) ∪ cl_displays vars.
Proof. done. Qed.

Lemma classified_family_items (family_name : string) (vars : Classified) :
  cl_colorspaces_to_ctl_transforms
    (classified_family graph describe additional_data family_name vars)
  = cl_colorspaces_to_ctl_transforms vars ++
    (if additional_data
     then item_of_node graph describe <$> classified_nodes graph family_name
     else []).
Proof. done. Qed.

(** The generator computes the config data of the graph, and the items of
    the classified nodes when additional data are asked for; it does not
    raise. *)
Lemma generate_config_aces_data_value :
  ensures (generate_config_aces_data graph describe additional_data)
    (λ r, r = (config_data graph describe,
               if additional_data
               then classified_items graph describe else [])).
Proof.
  unfold generate_config_aces_data.
  eapply ensures_bind; [by apply node_to_builtin_transform_value|].
  intros ? ->.
  eapply ensures_bind.
  { cbn [for_each].
    eapply ensures_bind; [by apply classify_family_value|]. intros ? ->.
    eapply ensures_bind; [by apply classify_family_value|]. intros ? ->.
    eapply ensures_bind; [by apply classify_family_value|]. intros ? ->.
    eapply ensures_bind; [by apply classify_family_value|]. intros ? ->.
    apply ensures_ret_eq. }
  intros ? ->.
  eapply ensures_bind; [apply order_displays_value|]. intros ? ->.
  apply ensures_ret. rewrite raw_views_value, keys_fromkeys.
  rewrite !classified_family_colorspaces, !classified_family_views,
    !classified_family_displays, !classified_family_items.
  change (String.eqb "csc" "output_transform") with false.
  change (String.eqb "input_transform" "output_transform") with false.
  change (String.eqb "lmt" "output_transform") with false.
  change (String.eqb "output_transform" "output_transform") with true.
  cbn [cl_views cl_displays cl_colorspaces cl_colorspaces_to_ctl_transforms].
  rewrite list_to_set_nil, !(left_id_L ∅ (∪)), (right_id_L ∅ (∪)).
  rewrite !app_nil_r, !app_nil_l.
  unfold config_data, config_views, classified_displays, classified_views.
  f_equal; [f_equal|].
  - unfold classified_colorspaces, families. cbn [mbind list_bind].
    rewrite app_nil_r, <-!(assoc_L (++)). done.
  - unfold classified_items, families. cbn [mbind list_bind].
    destruct additional_data; [|done].
    by rewrite app_nil_r, <-!(assoc_L (++)).
Qed.
End config_data.

(** * First occurrences *)

Lemma index_cons (x a : string) (l : list string) :
  PyList.index x (a :: l)
  = if decide (a = x) then Some 0 else S <$> PyList.index x l.
Proof.
  unfold PyList.index. cbn [list_find].
  destruct (decide (a = x)); [done|].
  destruct (list_find (λ y, y = x) l) as [[i y]|]; done.
Qed.

Lemma index_elem_of (x : string) (l : list string) :
  x ∈ l → ∃ i, PyList.index x l = Some i.
Proof.
  intros Hin. unfold PyList.index.
  destruct (list_find_elem_of (λ y, y = x) l x Hin eq_refl) as [[i y] ->].
  by exists i.
Qed.

Lemma index_Some_elem_of (x : string) (l : list string) (i : nat) :
  PyList.index x l = Some i → x ∈ l.
Proof.
  unfold PyList.index. intros Hi.
  destruct (list_find (λ y, y = x) l) as [[i' y]|] eqn:Hfind; [|done].
  apply list_find_Some in Hfind as (Hlook & -> & _).
  by eapply list_elem_of_lookup_2.
Qed.

Lemma index_filter_order (P : string → Prop) `{∀ x, Decision (P x)}
    (l : list string) (a b : string) (i j : nat) :
  P a → P b →
  PyList.index a l = Some i → PyList.index b l = Some j → i < j →
  ∃ i' j', PyList.index a (filter P l) = Some i' ∧
           PyList.index b (filter P l) = Some j' ∧ i' < j'.
Proof.
  intros Ha Hb. revert i j. induction l as [|c l IH]; intros i j; [done|].
  rewrite !index_cons, filter_cons.
  destruct (decide (c = a)) as [->|Hca].
  - intros [= <-]. destruct (decide (a = b)) as [->|Hab]; [intros [= <-]; lia|].
    intros Hj _. rewrite decide_True by done.
    destruct (PyList.index b l) as [j0|] eqn:Hj0; [|done].
    apply index_Some_elem_of in Hj0.
    destruct (index_elem_of b (filter P l)) as [j' Hj'].
    { by apply list_elem_of_filter. }
    exists 0, (S j'). rewrite !index_cons, decide_True, decide_False, Hj' by done.
    split_and!; [done..|lia].
  - destruct (PyList.index a l) as [i0|] eqn:Hi0; [|done]. intros [= <-].
    destruct (decide (c = b)) as [->|Hcb]; [intros [= <-]; lia|].
    destruct (PyList.index b l) as [j0|] eqn:Hj0; [|done]. intros [= <-] Hlt.
    destruct (IH i0 j0) as (i' & j' & Hi' & Hj' & Hlt'); [done|done|lia|].
    destruct (decide (P c)).
    + exists (S i'), (S j').
      rewrite !index_cons, !decide_False, Hi', Hj' by done.
      split_and!; [done..|lia].
    + by exists i', j'.
Qed.

Lemma first_seen_elem_of (l : list string) (x : string) :
  x ∈ first_seen l ↔ x ∈ l.
Proof.
  induction l as [|a l IH]; [done|]. cbn [first_seen].
  rewrite !elem_of_cons, list_elem_of_filter, IH.
  destruct (decide (x = a)); tauto.
Qed.

Lemma first_seen_NoDup (l : list string) : NoDup (first_seen l).
Proof.
  induction l as [|a l IH]; cbn [first_seen]; [constructor|].
  apply NoDup_cons. split; [|by apply NoDup_filter].
  rewrite list_elem_of_filter. tauto.
Qed.

Lemma first_seen_order (l : list string) (a b : string) (i j : nat) :
  PyList.index a l = Some i → PyList.index b l = Some j → i < j →
  ∃ i' j', PyList.index a (first_seen l) = Some i' ∧
           PyList.index b (first_seen l) = Some j' ∧ i' < j'.
Proof.
  revert i j. induction l as [|c l IH]; intros i j; [done|].
  cbn [first_seen]. rewrite !index_cons.
  destruct (decide (c = a)) as [->|Hca].
  - intros [= <-]. destruct (decide (a = b)) as [->|Hab]; [intros [= <-]; lia|].
    destruct (PyList.index b l) as [j0|] eqn:Hj0; [|done]. intros _ _.
    apply index_Some_elem_of in Hj0.
    destruct (index_elem_of b (filter (λ y, y ≠ a) (first_seen l))) as [j' Hj'].
    { apply list_elem_of_filter. split; [congruence|]. by apply first_seen_elem_of. }
    exists 0, (S j'). rewrite Hj'. split_and!; [done..|lia].
  - destruct (PyList.index a l) as [i0|] eqn:Hi0; [|done]. intros [= <-].
    destruct (decide (c = b)) as [->|Hcb]; [intros [= <-]; lia|].
    destruct (PyList.index b l) as [j0|] eqn:Hj0; [|done]. intros [= <-] Hlt.
    destruct (IH i0 j0) as (i' & j' & Hi' & Hj' & Hlt'); [done|done|lia|].
    destruct (index_filter_order (λ y, y ≠ c) (first_seen l) a b i' j')
      as (i'' & j'' & Hi'' & Hj'' & Hlt''); [congruence|congruence|done..|].
    exists (S i''), (S j''). rewrite Hi'', Hj''. split_and!; [done..|lia].
Qed.

(** * The model at work *)

Example split_last_segment :
  Str.split "/" "output_transform/sRGB" = Some ["output_transform"; "sRGB"] ∧
  Str.split "/" "ACES2065-1" = Some ["ACES2065-1"] ∧
  Str.split "/" "a//b/" = Some ["a"; ""; "b"; ""] ∧
  Str.split "ab" "xabab" = Some ["x"; ""; ""] ∧
  Str.split "" "a" = None.
Proof. by split_and!. Qed.

Example lower_direction :
  Str.lower "Forward" = "forward" ∧ Str.lower "REVERSE" = "reverse".
Proof. done. Qed.

Example strip_spaces : Str.strip "  Rec. 709  " = "Rec. 709".
Proof. done. Qed.

Example sub_leftmost :
  Re.sub "\(48 nits\)" "" "P3 (48 nits) (48 nits)" = "P3  " ∧
  Re.sub "a.c" "-" "abcabc axc ac" = "-- - ac".
Proof. done. Qed.

(** The substitutions alone leave the space that was before the qualifier,
    and an earlier rule can spare a later one its match. *)
Example substitutions_in_order :
  foldl (λ name rule, Re.sub rule.1 rule.2 name) "Rec. 709 (100 nits) dim"
    (@VIEW_NAME_SUBSTITUTION_PATTERNS Sample.imports)
  = "Rec. 709 " ∧
  foldl (λ name rule, Re.sub rule.1 rule.2 name) "Rec. 709 (100 nits) dim"
    (reverse (@VIEW_NAME_SUBSTITUTION_PATTERNS Sample.imports))
  = "Rec. 709  dim".
Proof. done. Qed.

Example sorted_is_stable :
  PyList.sorted (λ x y : nat * string, x.1 <=? y.1)
    [(2, "a"); (1, "b"); (2, "c"); (1, "d")]
  = [(1, "b"); (1, "d"); (2, "a"); (2, "c")].
Proof. done. Qed.

Example fromkeys_first_seen :
  PyDict.keys (PyDict.fromkeys ["b"; "a"; "b"; "c"; "a"]) = ["b"; "a"; "c"].
Proof. done. Qed.

Example verbose_path_of_two_edges :
  Str.join " --> "
    (PyDict.keys
       (PyDict.fromkeys
          (chain_from_iterable [("ACES2065-1", "OCES"); ("OCES", "sRGB")])))
  = "ACES2065-1 --> OCES --> sRGB".
Proof. done. Qed.

Example displays_of_sample :
  (order_displays {[ "Rec.709"; "sRGB"; "P3" ]} []).1
  = Return ["sRGB"; "P3"; "Rec.709"] ∧
  (order_displays {[ "Rec.709"; "P3" ]} []).1 = Return ["P3"; "Rec.709"].
Proof. split; by vm_compute. Qed.

Example sample_shortest_paths :
  Sample.shortest_path Sample.graph "ACES2065-1" "output_transform/P3"
  = Some [("ACES2065-1", "OCES"); ("OCES", "output_transform/P3")] ∧
  Sample.shortest_path Sample.graph "OCES" "OCES" = Some [] ∧
  Sample.shortest_path Sample.graph "OCES" "ACES2065-1" = None.
Proof. by split_and!. Qed.

(** * The properties of the generator *)

Lemma bind_singleton_fmap {A B} (f : A → B) (l : list A) :
  (x ← l; [f x]) = f <$> l.
Proof.
  induction l as [|x l IH]; [done|].
  cbn [mbind list_bind fmap list_fmap app]. by f_equal.
Qed.

(** C6: a style that [setStyle] refuses gives the placeholder
    [FileTransform] whose source is the style itself, and a warning is
    logged; a style that it accepts gives the [BuiltinTransform] and logs
    nothing.  So [create_builtin_transform] returns for every style, and no
    run of [node_to_builtin_transform] ends in the exception of an unknown
    style. *)
Theorem unknown_style_gives_placeholder `{Imports} :
  (∀ (style : string) (log : list log_record),
     create_builtin_transform style log =
     if builtin_style_defined style
     then (Return (BuiltinTransform style), log)
     else (Return (FileTransform style),
           log ++ [(WARNING,
                    style +:+ " style is not defined, using a placeholder " +:+
                    dq +:+ "FileTransform" +:+ dq +:+ " instead!")])) ∧
  (∀ (graph : DiGraph) (node direction : string) (log : list log_record),
     (node_to_builtin_transform graph node direction log).1 ≠ Raise OcioException).
Proof.
  split.
  - intros style log. unfold create_builtin_transform, setStyle.
    unfold mbind, Py_bind, bind, try_except.
    by destruct (builtin_style_defined style).
  - intros graph node direction log.
    destruct (decide (NODE_NAME_SEPARATOR = EmptyString)) as [Hsep|Hsep].
    + unfold node_to_builtin_transform, try_except, mbind, Py_bind, bind.
      destruct (conversion_path graph _ _) as [[|[source target] path]|];
        cbn [lift_option ret raise for_each]; try done.
      unfold last_segment, mbind, Py_bind, bind, logging_debug.
      rewrite Hsep. done.
    + destruct (node_to_builtin_transform_value graph node direction Hsep log)
        as (r & log' & -> & _). done.
Qed.

(** C2, as amended: the builder asks for the path between the node and
    [ACES_CONFIG_REFERENCE_COLORSPACE], the reference that names the scene
    reference colorspace, not [ACES_CONFIG_OUTPUT_ENCODING_COLORSPACE]: with
    the direction forward, from the node to that reference; with any other
    direction, from that reference to the node.  It returns the chain of
    that path. *)
Theorem path_between_node_and_scene_reference `{Imports}
    (graph : DiGraph) (node direction : string) :
  NODE_NAME_SEPARATOR ≠ EmptyString →
  ensures (node_to_builtin_transform graph node direction)
    (λ r, r = chain_of_path
                (if String.eqb (Str.lower direction) "forward"
                 then conversion_path graph node ACES_CONFIG_REFERENCE_COLORSPACE
                 else conversion_path graph ACES_CONFIG_REFERENCE_COLORSPACE node)).
Proof. intros Hsep. by apply node_to_builtin_transform_value. Qed.

Lemma path_between_node_and_scene_reference_witness :
  ensures
    (@node_to_builtin_transform Sample.imports Sample.graph "csc/ACEScg" "Forward")
    (λ r, r = Some (FileTransform "ACEScg_to_ACES2065-1")).
Proof.
  apply (@path_between_node_and_scene_reference
           Sample.imports Sample.graph "csc/ACEScg" "Forward").
  discriminate.
Defined.

(** C2, as stated, fails: in the sample graph the shortest path from ACEScg
    to the display reference OCES has two edges, and the forward transform
    of ACEScg is the single transform of the edge to ACES2065-1, not the
    chain of that path. *)
Lemma forward_path_not_to_display_reference :
  @conversion_path Sample.imports Sample.graph "csc/ACEScg"
    (@ACES_CONFIG_OUTPUT_ENCODING_COLORSPACE Sample.imports)
  = Some [("csc/ACEScg", "ACES2065-1"); ("ACES2065-1", "OCES")] ∧
  (@node_to_builtin_transform Sample.imports Sample.graph "csc/ACEScg" "Forward" []).1
  = Return (Some (FileTransform "ACEScg_to_ACES2065-1")) ∧
  (@node_to_builtin_transform Sample.imports Sample.graph "csc/ACEScg" "Forward" []).1
  ≠ Return
      (@chain_of_path Sample.imports
         (@conversion_path Sample.imports Sample.graph "csc/ACEScg"
            (@ACES_CONFIG_OUTPUT_ENCODING_COLORSPACE Sample.imports))).
Proof. split_and!; [by vm_compute..|]. vm_compute. discriminate. Qed.

(** C3: where the path asked for is empty the builder returns nothing; for
    one edge it returns the transform of that edge alone; for two edges or
    more it returns the group of the transforms of the edges, in the order
    of the path.  The transform of an edge refers to the identifier made of
    the last segment of the source, the separator and the last segment of
    the target. *)
Theorem chain_follows_path `{Imports}
    (graph : DiGraph) (node direction : string) (path : list (string * string)) :
  NODE_NAME_SEPARATOR ≠ EmptyString →
  path_query graph node direction = Some path →
  ensures (node_to_builtin_transform graph node direction)
    (λ r, match path with
          | [] => r = None
          | [edge] => r = Some (elementary_transform (edge_style edge))
          | _ :: _ :: _ =>
              r = Some (GroupTransform
                          ((λ edge, elementary_transform (edge_style edge))
                             <$> path))
          end) ∧
  ∀ source target : string,
    transform_identifier (elementary_transform (edge_style (source, target)))
    = Some (leaf_segment source
              +:+ ACES_CONFIG_BUILTIN_TRANSFORM_NAME_SEPARATOR
              +:+ leaf_segment target) ∧
    Str.split NODE_NAME_SEPARATOR source ≫= last = Some (leaf_segment source).
Proof.
  intros Hsep Hpath. split.
  - eapply ensures_weaken; [by apply node_to_builtin_transform_value|].
    intros r ->. rewrite Hpath. by destruct path as [|edge1 [|edge2 path]].
  - intros source target. split.
    + unfold elementary_transform, edge_style.
      by destruct (builtin_style_defined _).
    + unfold leaf_segment, Str.split.
      destruct NODE_NAME_SEPARATOR as [|c sep]; [done|].
      cbn [mbind option_bind].
      by destruct (split_scan_last (String c sep) 0 EmptyString source) as [x ->].
Qed.

Lemma chain_follows_path_witness :
  ensures
    (@node_to_builtin_transform
       Sample.imports Sample.graph "output_transform/sRGB" "Reverse")
    (λ r, r = Some (GroupTransform
                      [ FileTransform "ACES2065-1_to_OCES";
                        FileTransform "OCES_to_sRGB" ])).
Proof.
  apply (@chain_follows_path Sample.imports Sample.graph
           "output_transform/sRGB" "Reverse"
           [("ACES2065-1", "OCES"); ("OCES", "output_transform/sRGB")]).
  - discriminate.
  - reflexivity.
Defined.

(** C1, as amended: every node of a family that is not one of the two
    references gives exactly one colorspace of the config, in the order of
    the families and of the nodes, whether a path exists in some direction
    or in none; the colorspace of a node has the chains of the two paths,
    each of them absent where there is no path. *)
Theorem every_classified_node_is_kept `{Imports}
    (graph : DiGraph) (describe : ColorspaceDescriptionStyle)
    (additional_data : bool) :
  NODE_NAME_SEPARATOR ≠ EmptyString →
  ensures (generate_config_aces_data graph describe additional_data)
    (λ r, drop 3 (colorspaces r.1)
          = (family_name ← ["csc"; "input_transform"; "lmt"; "output_transform"];
             node ← classified_nodes graph family_name;
             [ctl_transform_to_colorspace
                (node_to_ctl_transform graph node) describe
                (chain_of_path
                   (conversion_path graph node ACES_CONFIG_REFERENCE_COLORSPACE))
                (chain_of_path
                   (conversion_path graph ACES_CONFIG_REFERENCE_COLORSPACE node))])).
Proof.
  intros Hsep.
  eapply ensures_weaken; [by apply generate_config_aces_data_value|].
  intros r ->. cbn [fst config_data colorspaces]. rewrite drop_app_length'; [|done].
  unfold classified_colorspaces, families.
  cbn [mbind list_bind]. by rewrite !bind_singleton_fmap.
Qed.

Lemma every_classified_node_is_kept_witness :
  ensures (@generate_config_aces_data Sample.imports Sample.graph tt false)
    (λ r, getName <$> drop 3 (colorspaces r.1)
          = [ "CSC - ACEScg"; "LMT - Orphan";
              "Output - sRGB (100 nits) dim"; "Output - P3 (48 nits)" ]).
Proof.
  eapply ensures_weaken.
  - apply (@every_classified_node_is_kept Sample.imports Sample.graph tt false).
    discriminate.
  - intros r ->. reflexivity.
Defined.

(** C1, as stated, fails: the look of the sample graph has no path to the
    reference and none from it, both of its transforms are absent, and it
    still has its colorspace in the config. *)
Lemma node_without_path_is_not_dropped :
  "lmt/Orphan" ∈ @classified_nodes Sample.imports Sample.graph "lmt" ∧
  (@node_to_builtin_transform Sample.imports Sample.graph "lmt/Orphan" "Forward" []).1
  = Return None ∧
  (@node_to_builtin_transform Sample.imports Sample.graph "lmt/Orphan" "Reverse" []).1
  = Return None ∧
  ∃ data items log,
    @generate_config_aces_data Sample.imports Sample.graph tt false []
    = (Return (data, items), log) ∧
    {| getName := "LMT - Orphan";
       getFamily := "lmt";
       getDescription := "";
       to_reference_transform := None;
       from_reference_transform := None;
       isData := false |} ∈ colorspaces data.
Proof.
  split_and!; [|by vm_compute..|].
  - vm_compute. apply list_elem_of_here.
  - eexists _, _, _. split; [by vm_compute|].
    do 4 apply list_elem_of_further. apply list_elem_of_here.
Qed.

(** C4: the colorspaces of the config begin with the scene reference
    colorspace, the display reference colorspace and the raw colorspace, in
    this order, before those of the classified nodes.  The transform from
    the reference of the second one is what the builder returns for the
    display reference node and the direction reverse; the third one is
    data and has no transform. *)
Theorem three_colorspaces_first `{Imports}
    (graph : DiGraph) (describe : ColorspaceDescriptionStyle)
    (additional_data : bool) :
  NODE_NAME_SEPARATOR ≠ EmptyString →
  ensures (generate_config_aces_data graph describe additional_data)
    (λ r, ∃ display_reference,
        colorspaces r.1
        = [ {| getName := "CSC - " +:+ ACES_CONFIG_REFERENCE_COLORSPACE;
               getFamily := "ACES";
               getDescription :=
                 "The " +:+ dq +:+ "Academy Color Encoding System" +:+ dq +:+
                 " reference colorspace.";
               to_reference_transform := None;
               from_reference_transform := None;
               isData := false |};
            display_reference;
            {| getName := "Utility - Raw";
               getFamily := "Utility";
               getDescription :=
                 "The utility " +:+ dq +:+ "Raw" +:+ dq +:+ " colorspace.";
               to_reference_transform := None;
               from_reference_transform := None;
               isData := true |} ]
          ++ classified_colorspaces graph describe ∧
        getName display_reference
        = "CSC - " +:+ ACES_CONFIG_OUTPUT_ENCODING_COLORSPACE ∧
        getFamily display_reference = "ACES" ∧
        isData display_reference = false ∧
        to_reference_transform display_reference = None ∧
        ensures
          (node_to_builtin_transform
             graph ACES_CONFIG_OUTPUT_ENCODING_COLORSPACE "Reverse")
          (λ chain, chain = from_reference_transform display_reference)).
Proof.
  intros Hsep.
  eapply ensures_weaken; [by apply generate_config_aces_data_value|].
  intros r ->. exists (display_reference_colorspace graph).
  split_and!; try done.
  eapply ensures_weaken; [by apply node_to_builtin_transform_value|].
  by intros chain ->.
Qed.

Lemma three_colorspaces_first_witness :
  ensures (@generate_config_aces_data Sample.imports Sample.graph tt false)
    (λ r, getName <$> take 3 (colorspaces r.1)
          = [ "CSC - ACES2065-1"; "CSC - OCES"; "Utility - Raw" ]).
Proof.
  eapply ensures_weaken.
  - apply (@three_colorspaces_first Sample.imports Sample.graph tt false).
    discriminate.
  - intros r (display_reference & -> & Hname & _). cbn [take app fmap list_fmap].
    rewrite Hname. reflexivity.
Defined.

(** C5: for every set of displays, the display list has exactly the
    displays of the set, each one once.  Where "sRGB" is one of them it
    comes first and the others follow in strictly ascending order; where it
    is not, the whole list is in strictly ascending order. *)
Theorem sRGB_first_then_ascending (displays : gset string) :
  ensures (order_displays displays)
    (λ ordered,
       (∀ display, display ∈ ordered ↔ display ∈ displays) ∧
       NoDup ordered ∧
       if bool_decide ("sRGB" ∈ displays)
       then ∃ others, ordered = "sRGB" :: others ∧
                      StronglySorted string_lt others
       else StronglySorted string_lt ordered).
Proof.
  eapply ensures_weaken; [apply order_displays_value|].
  intros ordered ->. unfold pinned_displays.
  destruct (bool_decide_reflect ("sRGB" ∈ displays)) as [Hin|Hnotin].
  - split_and!.
    + intros display.
      rewrite elem_of_cons, list_elem_of_filter, sorted_displays_elem_of.
      destruct (decide (display = "sRGB")) as [->|]; tauto.
    + apply NoDup_cons. split.
      * rewrite list_elem_of_filter. tauto.
      * apply NoDup_filter, sorted_displays_NoDup.
    + eexists. split; [done|].
      apply StronglySorted_filter, sorted_displays_StronglySorted.
  - split_and!.
    + apply sorted_displays_elem_of.
    + apply sorted_displays_NoDup.
    + apply sorted_displays_StronglySorted.
Qed.

(** C7: the colorspace of every view of the config, of a node of the output
    family or of the raw colorspace on a display, is the name of a
    colorspace of the config. *)
Theorem view_colorspaces_exist `{Imports}
    (graph : DiGraph) (describe : ColorspaceDescriptionStyle)
    (additional_data : bool) :
  NODE_NAME_SEPARATOR ≠ EmptyString →
  ensures (generate_config_aces_data graph describe additional_data)
    (λ r, ∀ view, view ∈ views r.1 →
                  ∃ colorspace, colorspace ∈ colorspaces r.1 ∧
                                getName colorspace = view_colorspace view).
Proof.
  intros Hsep.
  eapply ensures_weaken; [by apply generate_config_aces_data_value|].
  intros r -> view. cbn [fst config_data views colorspaces].
  unfold config_views. rewrite elem_of_app, sorted_Permutation.
  intros [Hview|Hview].
  - apply list_elem_of_fmap in Hview as (node & -> & Hnode).
    exists (colorspace_of_node graph describe node). split; [|done].
    do 3 apply list_elem_of_further.
    unfold classified_colorspaces, families. cbn [mbind list_bind].
    rewrite !elem_of_app. do 3 right. left.
    apply list_elem_of_fmap. by exists node.
  - apply list_elem_of_fmap in Hview as (display & -> & _).
    exists raw_colorspace. split; [|done].
    do 2 apply list_elem_of_further. apply list_elem_of_here.
Qed.

Lemma view_colorspaces_exist_witness :
  ensures (@generate_config_aces_data Sample.imports Sample.graph tt false)
    (λ r, ∀ view, view ∈ views r.1 →
                  ∃ colorspace, colorspace ∈ colorspaces r.1 ∧
                                getName colorspace = view_colorspace view).
Proof.
  apply (@view_colorspaces_exist Sample.imports Sample.graph tt false).
  discriminate.
Defined.

(** C8: the active views of the config are the view names of its views,
    each one once, in the order of their first occurrences: the list has no
    duplicate, it has the same names as the views, and of two names the one
    that occurs first among the views comes first. *)
Theorem active_views_first_seen `{Imports}
    (graph : DiGraph) (describe : ColorspaceDescriptionStyle)
    (additional_data : bool) :
  NODE_NAME_SEPARATOR ≠ EmptyString →
  ensures (generate_config_aces_data graph describe additional_data)
    (λ r, let names := view_view <$> views r.1 in
          active_views r.1 = first_seen names ∧
          NoDup (active_views r.1) ∧
          (∀ name, name ∈ active_views r.1 ↔ name ∈ names) ∧
          ∀ name1 name2 i j,
            PyList.index name1 names = Some i →
            PyList.index name2 names = Some j →
            i < j →
            ∃ i' j', PyList.index name1 (active_views r.1) = Some i' ∧
                     PyList.index name2 (active_views r.1) = Some j' ∧
                     i' < j').
Proof.
  intros Hsep.
  eapply ensures_weaken; [by apply generate_config_aces_data_value|].
  intros r ->. cbn [fst config_data views active_views]. split_and!.
  - done.
  - apply first_seen_NoDup.
  - apply first_seen_elem_of.
  - apply first_seen_order.
Qed.

Lemma active_views_first_seen_witness :
  ensures (@generate_config_aces_data Sample.imports Sample.graph tt false)
    (λ r, active_views r.1 = first_seen (view_view <$> views r.1)).
Proof.
  eapply ensures_weaken.
  - apply (@active_views_first_seen Sample.imports Sample.graph tt false).
    discriminate.
  - by intros r (Hactive & _).
Defined.

(** C9: with the name beautifier of the spec, the view name
    "Rec. 709 (100 nits) dim" is beautified to "Rec. 709", whatever the
    separator of the colorspace names. *)
Theorem beautify_view_name_example `{Imports} :
  (∀ name patterns, beautify_name name patterns = beautify_name_model name patterns) →
  beautify_view_name "Rec. 709 (100 nits) dim" = "Rec. 709".
Proof.
  intros Hmodel. unfold beautify_view_name. rewrite Hmodel.
  unfold beautify_name_model, VIEW_NAME_SUBSTITUTION_PATTERNS.
  reflexivity.
Qed.

Lemma beautify_view_name_example_witness :
  @beautify_view_name Sample.imports "Rec. 709 (100 nits) dim" = "Rec. 709".
Proof.
  apply (@beautify_view_name_example Sample.imports). reflexivity.
Defined.

(** C10: where [generate_config] gives a config, [generate_config_aces]
    returns, with additional data, the config, the config data and the
    items that bind the colorspace of each classified node to the CTL
    transform of the node; without additional data it returns the config
    alone, and the dict of the colorspaces and their CTL transforms is
    empty at the end of the run. *)
Theorem additional_data_is_returned_on_request `{Imports}
    (graph : DiGraph) (config_name : option string) (validate : bool)
    (describe : ColorspaceDescriptionStyle) (config : Config) :
  NODE_NAME_SEPARATOR ≠ EmptyString →
  generate_config (config_data graph describe) config_name validate
  = inr config →
  ensures (generate_config_aces_data graph describe true)
    (λ r, ensures (generate_config_aces graph config_name validate describe true)
            (λ generated, generated = ConfigAndData config r.1 r.2) ∧
          r.2 = (family_name ← ["csc"; "input_transform"; "lmt"; "output_transform"];
                 node ← classified_nodes graph family_name;
                 [(colorspace_of_node graph describe node,
                   node_to_ctl_transform graph node)])) ∧
  ensures (generate_config_aces graph config_name validate describe false)
    (λ generated, generated = ConfigOnly config) ∧
  ensures (generate_config_aces_data graph describe false)
    (λ r, r.2 = []).
Proof.
  intros Hsep Hconfig. split_and!.
  - eapply ensures_weaken; [by apply generate_config_aces_data_value|].
    intros r ->. cbn [fst snd]. split.
    + unfold generate_config_aces.
      eapply ensures_bind; [by apply generate_config_aces_data_value|].
      intros ? ->. rewrite Hconfig. apply ensures_ret_eq.
    + unfold classified_items, families, item_of_node.
      cbn [mbind list_bind]. by rewrite !bind_singleton_fmap.
  - unfold generate_config_aces.
    eapply ensures_bind; [by apply generate_config_aces_data_value|].
    intros ? ->. rewrite Hconfig. apply ensures_ret_eq.
  - eapply ensures_weaken; [by apply generate_config_aces_data_value|].
    by intros r ->.
Qed.

Lemma additional_data_is_returned_on_request_witness :
  ensures
    (@generate_config_aces Sample.imports Sample.graph None true tt false)
    (λ generated,
       generated
       = @ConfigOnly Sample.imports (@config_data Sample.imports Sample.graph tt)).
Proof.
  apply (@additional_data_is_returned_on_request
           Sample.imports Sample.graph None true tt
           (@config_data Sample.imports Sample.graph tt)).
  - discriminate.
  - reflexivity.
Defined.


(** * What the builder writes to the log *)

Section writes.
Context {A B : Type}.

Lemma writes_ret (a : A) : writes (mret a) a [].
Proof. intros l. by rewrite app_nil_r. Qed.

Lemma writes_bind (m : Py A) (k : A → Py B) (a : A) (b : B)
    (records1 records2 : list log_record) :
  writes m a records1 → writes (k a) b records2 →
  writes (m ≫= k) b (records1 ++ records2).
Proof.
  intros Hm Hk l. unfold mbind, Py_bind, bind.
  by rewrite Hm, Hk, (assoc_L (++)).
Qed.

Lemma writes_try (m : Py A) (e : exn) (handler : Py A) (a : A)
    (records : list log_record) :
  writes m a records → writes (try_except m e handler) a records.
Proof. intros Hm l. unfold try_except. by rewrite Hm. Qed.
End writes.

Lemma writes_for_each {A S : Type} (xs : list A) (body : A → S → Py S)
    (f : S → A → S) (g : A → list log_record) (s : S) :
  (∀ x s', writes (body x s') (f s' x) (g x)) →
  writes (for_each xs body s) (foldl f s xs) (flat_map g xs).
Proof.
  intros Hbody. revert s. induction xs as [|x xs IH]; intros s.
  - apply writes_ret.
  - cbn [for_each foldl flat_map]. eapply writes_bind; [apply Hbody | apply IH].
Qed.

Lemma flat_map_nil {A B} (xs : list A) : flat_map (λ _, @nil B) xs = [].
Proof. by induction xs. Qed.

Section builder_records.
Context `{Imports}.

Lemma create_builtin_transform_writes (style : string) :
  writes (create_builtin_transform style) (elementary_transform style)
         (style_warnings [style]).
Proof.
  intros l. unfold create_builtin_transform, elementary_transform, setStyle,
    style_warnings, style_warning.
  unfold mbind, Py_bind, bind, try_except. cbn [flat_map].
  destruct (builtin_style_defined style); by rewrite !app_nil_r.
Qed.

Lemma last_segment_writes (name : string) :
  NODE_NAME_SEPARATOR ≠ EmptyString →
  writes (last_segment name) (leaf_segment name) [].
Proof.
  intros Hsep l. unfold last_segment, leaf_segment, Str.split.
  destruct NODE_NAME_SEPARATOR as [|c sep] eqn:Esep; [done|].
  destruct (split_scan_last (String c sep) 0 EmptyString name) as [x Hx].
  unfold mbind, Py_bind, bind. cbn [lift_option ret].
  by rewrite Hx, app_nil_r.
Qed.

Lemma transform_styles_writes (path : list (string * string)) :
  NODE_NAME_SEPARATOR ≠ EmptyString →
  writes
    (for_each path
       (λ edge transform_styles,
          let '(source, target) := edge in
          source ← last_segment source;
          target ← last_segment target;
          mret (transform_styles ++
                [source +:+ ACES_CONFIG_BUILTIN_TRANSFORM_NAME_SEPARATOR
                        +:+ target]))
       [])
    (edge_style <$> path) [].
Proof.
  intros Hsep.
  pose proof (writes_for_each path
    (λ edge transform_styles,
       let '(source, target) := edge in
       source ← last_segment source;
       target ← last_segment target;
       mret (transform_styles ++
             [source +:+ ACES_CONFIG_BUILTIN_TRANSFORM_NAME_SEPARATOR
                     +:+ target]))
    (λ styles edge, styles ++ [edge_style edge]) (λ _, []) []) as Hloop.
  rewrite flat_map_nil, foldl_snoc_fmap in Hloop. apply Hloop.
  intros [source target] styles.
  change (@nil log_record) with (@nil log_record ++ ([] ++ [])).
  eapply writes_bind; [by apply last_segment_writes|].
  eapply writes_bind; [by apply last_segment_writes|].
  apply writes_ret.
Qed.

Lemma group_transform_writes (styles : list string) :
  writes
    (for_each styles
       (λ transform_style group_transform,
          builtin_transform ← create_builtin_transform transform_style;
          mret (appendTransform group_transform builtin_transform))
       (GroupTransform []))
    (GroupTransform (elementary_transform <$> styles))
    (style_warnings styles).
Proof.
  pose proof (writes_for_each styles
    (λ transform_style group_transform,
       builtin_transform ← create_builtin_transform transform_style;
       mret (appendTransform group_transform builtin_transform))
    (λ group style, appendTransform group (elementary_transform style))
    (λ style, if builtin_style_defined style then [] else [style_warning style])
    (GroupTransform [])) as Hloop.
  rewrite foldl_appendTransform in Hloop. apply Hloop.
  intros style group.
  pose proof (create_builtin_transform_writes style) as Hcreate.
  unfold style_warnings in Hcreate. cbn [flat_map] in Hcreate.
  rewrite app_nil_r in Hcreate.
  rewrite <-(app_nil_r (if builtin_style_defined style then _ else _)).
  eapply writes_bind; [apply Hcreate | apply writes_ret].
Qed.

End builder_records.

(** * Further properties of the generator *)

Lemma node_to_builtin_transform_no_path `{Imports}
    (graph : DiGraph) (node direction : string) :
  path_query graph node direction = None →
  writes (node_to_builtin_transform graph node direction)
         None [no_path_record node].
Proof.
  unfold path_query, node_to_builtin_transform. intros Hpath l.
  unfold try_except, mbind, Py_bind, bind.
  destruct (String.eqb (Str.lower direction) "forward");
    cbn [fst snd]; by rewrite Hpath.
Qed.

(** X1: where there is no path the builder returns nothing and adds one
    debug record to the log, which names [ACES_CONFIG_REFERENCE_COLORSPACE]
    and the node, whatever the direction; nothing is raised. *)
Theorem no_path_is_logged_and_absent `{Imports}
    (graph : DiGraph) (node direction : string) :
  path_query graph node direction = None →
  writes (node_to_builtin_transform graph node direction)
         None [no_path_record node].
Proof. apply node_to_builtin_transform_no_path. Qed.

Lemma no_path_is_logged_and_absent_witness :
  @node_to_builtin_transform Sample.imports Sample.graph "lmt/Orphan" "Reverse" []
  = (Return None, [(DEBUG, "No path to ACES2065-1 for lmt/Orphan!")]).
Proof.
  apply (@no_path_is_logged_and_absent
           Sample.imports Sample.graph "lmt/Orphan" "Reverse").
  reflexivity.
Defined.

(** X2: where the path is empty, as for the reference itself, the builder
    returns nothing and leaves the log as it is: no transform is created
    and nothing is announced. *)
Theorem empty_path_is_silent `{Imports}
    (graph : DiGraph) (node direction : string) :
  path_query graph node direction = Some [] →
  writes (node_to_builtin_transform graph node direction) None [].
Proof.
  unfold path_query, node_to_builtin_transform. intros Hpath l.
  unfold try_except, mbind, Py_bind, bind.
  destruct (String.eqb (Str.lower direction) "forward");
    cbn [fst snd]; rewrite Hpath; cbn [lift_option ret mret Py_ret];
    by rewrite app_nil_r.
Qed.

Lemma empty_path_is_silent_witness :
  @node_to_builtin_transform Sample.imports Sample.graph "ACES2065-1" "Forward" []
  = (Return None, []).
Proof.
  apply (@empty_path_is_silent
           Sample.imports Sample.graph "ACES2065-1" "Forward").
  reflexivity.
Defined.

(** X3: the direction is read without regard to case, and every direction
    that is not "forward" is the reverse one: the builder does for it what
    it does for "Reverse". *)
Theorem direction_is_forward_or_reverse `{Imports}
    (graph : DiGraph) (node direction : string) :
  node_to_builtin_transform graph node direction
  = if String.eqb (Str.lower direction) "forward"
    then node_to_builtin_transform graph node "Forward"
    else node_to_builtin_transform graph node "Reverse".
Proof.
  unfold node_to_builtin_transform.
  by destruct (String.eqb (Str.lower direction) "forward").
Qed.

(** X4: for a path of one edge or more the builder adds to the log the
    debug record that announces the path, then one warning for each edge
    whose style is not defined, in the order of the path, and nothing
    else. *)
Theorem chain_is_announced_then_warned `{Imports}
    (graph : DiGraph) (node direction : string)
    (edge : string * string) (path : list (string * string)) :
  NODE_NAME_SEPARATOR ≠ EmptyString →
  path_query graph node direction = Some (edge :: path) →
  writes (node_to_builtin_transform graph node direction)
         (chain_of_path (Some (edge :: path)))
         (creating_record (edge :: path)
            :: style_warnings (edge_style <$> edge :: path)).
Proof.
  intros Hsep. unfold path_query, node_to_builtin_transform. intros Hpath.
  apply writes_try.
  assert (Hasked :
    lift_option NetworkXNoPath
      (conversion_path graph
         (if String.eqb (Str.lower direction) "forward"
          then (node, ACES_CONFIG_REFERENCE_COLORSPACE)
          else ((node, ACES_CONFIG_REFERENCE_COLORSPACE).2,
                (node, ACES_CONFIG_REFERENCE_COLORSPACE).1)).1
         (if String.eqb (Str.lower direction) "forward"
          then (node, ACES_CONFIG_REFERENCE_COLORSPACE)
          else ((node, ACES_CONFIG_REFERENCE_COLORSPACE).2,
                (node, ACES_CONFIG_REFERENCE_COLORSPACE).1)).2)
    = mret (edge :: path)).
  { destruct (String.eqb (Str.lower direction) "forward");
      cbn [fst snd]; by rewrite Hpath. }
  cbv zeta. rewrite Hasked. clear Hasked Hpath.
  change (creating_record (edge :: path)
            :: style_warnings (edge_style <$> edge :: path))
    with ([] ++ ([creating_record (edge :: path)] ++
                 ([] ++ style_warnings (edge_style <$> edge :: path)))).
  eapply writes_bind; [apply writes_ret|].
  eapply writes_bind; [intros l; reflexivity|].
  eapply writes_bind; [by apply transform_styles_writes|].
  destruct path as [|edge2 path].
  - cbn [fmap list_fmap length bool_decide decide_rel lookup list_lookup
         lift_option].
    rewrite bool_decide_eq_true_2 by done.
    rewrite <-(app_nil_l (style_warnings _)).
    eapply writes_bind; [apply writes_ret|].
    rewrite <-(app_nil_r (style_warnings _)).
    eapply writes_bind; [apply create_builtin_transform_writes|].
    apply writes_ret.
  - rewrite bool_decide_eq_false_2 by (cbn; lia).
    rewrite <-(app_nil_r (style_warnings _)).
    eapply writes_bind; [apply group_transform_writes|].
    cbn [chain_of_path]. rewrite <-list_fmap_compose. apply writes_ret.
Qed.

Lemma chain_is_announced_then_warned_witness :
  @node_to_builtin_transform
    Sample.imports Sample.graph "output_transform/P3" "Reverse" []
  = (Return (Some (GroupTransform [ FileTransform "ACES2065-1_to_OCES";
                                    FileTransform "OCES_to_P3" ])),
     [ (DEBUG,
        "Creating " +:+ dq +:+ "BuiltinTransform" +:+ dq +:+
        " with ACES2065-1 --> OCES --> output_transform/P3 path.");
       (WARNING,
        "ACES2065-1_to_OCES style is not defined, using a placeholder " +:+
        dq +:+ "FileTransform" +:+ dq +:+ " instead!");
       (WARNING,
        "OCES_to_P3 style is not defined, using a placeholder " +:+
        dq +:+ "FileTransform" +:+ dq +:+ " instead!") ]).
Proof.
  apply (@chain_is_announced_then_warned
           Sample.imports Sample.graph "output_transform/P3" "Reverse"
           ("ACES2065-1", "OCES") [("OCES", "output_transform/P3")]).
  - discriminate.
  - reflexivity.
Defined.

#[global] Instance view_key_le_total : Total (holds view_key_leb).
Proof.
  intros x y. unfold holds, view_key_leb.
  rewrite (String.eqb_sym (view_display y)).
  destruct (String.eqb (view_display x) (view_display y)).
  - apply (total string_le).
  - apply (total string_le).
Qed.

Lemma pinned_displays_elem_of (displays : gset string) (display : string) :
  display ∈ pinned_displays displays ↔ display ∈ displays.
Proof.
  unfold pinned_displays.
  destruct (bool_decide_reflect ("sRGB" ∈ displays)) as [Hin|Hnotin].
  - rewrite elem_of_cons, list_elem_of_filter, sorted_displays_elem_of.
    destruct (decide (display = "sRGB")) as [->|]; tauto.
  - apply sorted_displays_elem_of.
Qed.

Lemma pinned_displays_NoDup (displays : gset string) :
  NoDup (pinned_displays displays).
Proof.
  unfold pinned_displays.
  destruct (bool_decide ("sRGB" ∈ displays)); [|apply sorted_displays_NoDup].
  apply NoDup_cons. split.
  - rewrite list_elem_of_filter. tauto.
  - apply NoDup_filter, sorted_displays_NoDup.
Qed.

(** X5: the views of the config are the views of the classified nodes of
    the output family, in ascending order of their displays and, on one
    display, of their view names, followed by one view of the raw
    colorspace for each active display, in the order of the active
    displays. *)
Theorem views_sorted_then_raw `{Imports}
    (graph : DiGraph) (describe : ColorspaceDescriptionStyle)
    (additional_data : bool) :
  NODE_NAME_SEPARATOR ≠ EmptyString →
  ensures (generate_config_aces_data graph describe additional_data)
    (λ r, ∃ classified,
        views r.1
        = classified ++
          ((λ display,
              {| view_display := display;
                 view_view := beautify_view_name "Utility - Raw";
                 view_colorspace := "Utility - Raw" |})
             <$> active_displays r.1) ∧
        classified
        ≡ₚ (view_of_node graph describe
              <$> classified_nodes graph "output_transform") ∧
        Sorted (holds view_key_leb) classified).
Proof.
  intros Hsep.
  eapply ensures_weaken; [by apply generate_config_aces_data_value|].
  intros r ->. cbn [fst config_data views active_displays].
  exists (PyList.sorted view_key_leb (classified_views graph describe)).
  split_and!.
  - done.
  - apply sorted_Permutation.
  - apply (sorted_Sorted view_key_leb).
Qed.

Lemma views_sorted_then_raw_witness :
  ensures (@generate_config_aces_data Sample.imports Sample.graph tt false)
    (λ r, ∃ classified,
        views r.1
        = classified ++
          ((λ display,
              {| view_display := display;
                 view_view := "Utility - Raw";
                 view_colorspace := "Utility - Raw" |})
             <$> active_displays r.1) ∧
        length classified = 2).
Proof.
  eapply ensures_weaken.
  - apply (@views_sorted_then_raw Sample.imports Sample.graph tt false).
    discriminate.
  - intros r (classified & Hviews & Hperm & _). exists classified.
    split; [exact Hviews|]. by rewrite Hperm.
Defined.

(** X6: the active displays are the displays of the views, each one once:
    a display is active exactly where some view is on it. *)
Theorem active_displays_are_those_of_views `{Imports}
    (graph : DiGraph) (describe : ColorspaceDescriptionStyle)
    (additional_data : bool) :
  NODE_NAME_SEPARATOR ≠ EmptyString →
  ensures (generate_config_aces_data graph describe additional_data)
    (λ r, NoDup (active_displays r.1) ∧
          ∀ display,
            display ∈ active_displays r.1 ↔
            ∃ view, view ∈ views r.1 ∧ view_display view = display).
Proof.
  intros Hsep.
  eapply ensures_weaken; [by apply generate_config_aces_data_value|].
  intros r ->. cbn [fst config_data views active_displays].
  split; [apply pinned_displays_NoDup|]. intros display. split.
  - intros Hactive. exists (raw_view display). split; [|done].
    unfold config_views. apply elem_of_app. right.
    by apply list_elem_of_fmap_2.
  - intros (view & Hview & <-). unfold config_views in Hview.
    apply elem_of_app in Hview as [Hview|Hview].
    + rewrite sorted_Permutation in Hview.
      apply pinned_displays_elem_of. unfold classified_displays.
      apply elem_of_list_to_set. by apply list_elem_of_fmap_2.
    + by apply list_elem_of_fmap in Hview as (display & -> & Hdisplay).
Qed.

Lemma active_displays_are_those_of_views_witness :
  ensures (@generate_config_aces_data Sample.imports Sample.graph tt false)
    (λ r, NoDup (active_displays r.1)).
Proof.
  eapply ensures_weaken.
  - apply (@active_displays_are_those_of_views
             Sample.imports Sample.graph tt false).
    discriminate.
  - by intros r [Hnodup _].
Defined.

(** X7: the name of every view of the config, of a node or of the raw
    colorspace, is the beautified name of the colorspace of the view. *)
Theorem view_names_are_beautified `{Imports}
    (graph : DiGraph) (describe : ColorspaceDescriptionStyle)
    (additional_data : bool) :
  NODE_NAME_SEPARATOR ≠ EmptyString →
  ensures (generate_config_aces_data graph describe additional_data)
    (λ r, ∀ view, view ∈ views r.1 →
                  view_view view = beautify_view_name (view_colorspace view)).
Proof.
  intros Hsep.
  eapply ensures_weaken; [by apply generate_config_aces_data_value|].
  intros r -> view. cbn [fst config_data views].
  unfold config_views. rewrite elem_of_app, sorted_Permutation.
  intros [Hview|Hview].
  - by apply list_elem_of_fmap in Hview as (node & -> & _).
  - by apply list_elem_of_fmap in Hview as (display & -> & _).
Qed.

Lemma view_names_are_beautified_witness :
  ensures (@generate_config_aces_data Sample.imports Sample.graph tt false)
    (λ r, ∀ view, view ∈ views r.1 →
                  view_view view
                  = @beautify_view_name Sample.imports (view_colorspace view)).
Proof.
  apply (@view_names_are_beautified Sample.imports Sample.graph tt false).
  discriminate.
Defined.

(** X8: a graph without a classified node of the output family gives a
    config without a view, without an active display and without an active
    view: the raw colorspace gets a view only on the displays of other
    views. *)
Theorem no_output_node_no_view `{Imports}
    (graph : DiGraph) (describe : ColorspaceDescriptionStyle)
    (additional_data : bool) :
  NODE_NAME_SEPARATOR ≠ EmptyString →
  classified_nodes graph "output_transform" = [] →
  ensures (generate_config_aces_data graph describe additional_data)
    (λ r, views r.1 = [] ∧ active_displays r.1 = [] ∧ active_views r.1 = []).
Proof.
  intros Hsep Hnodes.
  eapply ensures_weaken; [by apply generate_config_aces_data_value|].
  intros r ->. cbn [fst config_data views active_displays active_views].
  assert (Hdisplays : pinned_displays (classified_displays graph describe) = []).
  { unfold classified_displays, classified_views. rewrite Hnodes.
    cbn [fmap list_fmap list_to_set]. unfold pinned_displays.
    rewrite elements_empty. cbn [PyList.sorted].
    by rewrite bool_decide_eq_false_2 by apply not_elem_of_empty. }
  unfold config_views, classified_views. rewrite Hdisplays, Hnodes. done.
Qed.

Lemma no_output_node_no_view_witness :
  ensures (@generate_config_aces_data Sample.imports Sample.scene_graph tt false)
    (λ r, views r.1 = [] ∧ active_displays r.1 = [] ∧ active_views r.1 = []).
Proof.
  apply (@no_output_node_no_view Sample.imports Sample.scene_graph tt false).
  - discriminate.
  - reflexivity.
Defined.

(** X9: the config data do not depend on whether additional data are asked
    for: the two runs compute the same data, and so hand the same data to
    [generate_config]. *)
Theorem additional_data_leaves_data_alone `{Imports}
    (graph : DiGraph) (describe : ColorspaceDescriptionStyle) :
  NODE_NAME_SEPARATOR ≠ EmptyString →
  ∃ data,
    ensures (generate_config_aces_data graph describe true) (λ r, r.1 = data) ∧
    ensures (generate_config_aces_data graph describe false) (λ r, r.1 = data).
Proof.
  intros Hsep. exists (config_data graph describe). split.
  - eapply ensures_weaken; [by apply generate_config_aces_data_value|].
    by intros r ->.
  - eapply ensures_weaken; [by apply generate_config_aces_data_value|].
    by intros r ->.
Qed.

Lemma additional_data_leaves_data_alone_witness :
  ∃ data,
    ensures (@generate_config_aces_data Sample.imports Sample.graph tt true)
            (λ r, r.1 = data) ∧
    ensures (@generate_config_aces_data Sample.imports Sample.graph tt false)
            (λ r, r.1 = data).
Proof.
  apply (@additional_data_leaves_data_alone Sample.imports Sample.graph tt).
  discriminate.
Defined.

(** X10: with additional data, the keys of the dict of the colorspaces and
    their CTL transforms are the colorspaces of the config after the first
    three, in the same order: each classified colorspace has its item, the
    two reference colorspaces and the raw colorspace have none. *)
Theorem items_are_for_classified_colorspaces `{Imports}
    (graph : DiGraph) (describe : ColorspaceDescriptionStyle) :
  NODE_NAME_SEPARATOR ≠ EmptyString →
  ensures (generate_config_aces_data graph describe true)
    (λ r, r.2.*1 = drop 3 (colorspaces r.1)).
Proof.
  intros Hsep.
  eapply ensures_weaken; [by apply generate_config_aces_data_value|].
  intros r ->. cbn [fst snd config_data colorspaces].
  rewrite drop_app_length'; [|done].
  unfold classified_items, classified_colorspaces, families, item_of_node.
  cbn [mbind list_bind]. rewrite !fmap_app, <-!list_fmap_compose. done.
Qed.

Lemma items_are_for_classified_colorspaces_witness :
  ensures (@generate_config_aces_data Sample.imports Sample.graph tt true)
    (λ r, r.2.*1 = drop 3 (colorspaces r.1)).
Proof.
  apply (@items_are_for_classified_colorspaces Sample.imports Sample.graph tt).
  discriminate.
Defined.

(** X11: an exception of [generate_config] is not caught: where it raises
    on the config data, [generate_config_aces] raises the same exception,
    with or without additional data, and returns nothing. *)
Theorem generate_config_exception_propagates `{Imports}
    (graph : DiGraph) (config_name : option string) (validate : bool)
    (describe : ColorspaceDescriptionStyle) (additional_data : bool)
    (e : exn) (log : list log_record) :
  NODE_NAME_SEPARATOR ≠ EmptyString →
  generate_config (config_data graph describe) config_name validate = inl e →
  (generate_config_aces graph config_name validate describe additional_data log).1
  = Raise e.
Proof.
  intros Hsep Hconfig. unfold generate_config_aces, mbind, Py_bind, bind.
  destruct (generate_config_aces_data_value
              graph describe additional_data Hsep log)
    as (r & log' & -> & ->).
  by rewrite Hconfig.
Qed.

Lemma generate_config_exception_propagates_witness :
  (@generate_config_aces Sample.validating Sample.graph None true tt true []).1
  = Raise OcioException.
Proof.
  apply (@generate_config_exception_propagates
           Sample.validating Sample.graph None true tt true OcioException []).
  - discriminate.
  - reflexivity.
Defined.

(** X12: a node without a path to the reference and without a path from it
    still gets its colorspace, made without a transform in either
    direction, and the log gets the same debug record twice, once for each
    direction. *)
Theorem node_without_path_has_bare_colorspace `{Imports}
    (graph : DiGraph) (node : string) (describe : ColorspaceDescriptionStyle) :
  conversion_path graph node ACES_CONFIG_REFERENCE_COLORSPACE = None →
  conversion_path graph ACES_CONFIG_REFERENCE_COLORSPACE node = None →
  writes (node_to_colorspace graph node describe)
    (ctl_transform_to_colorspace
       (node_to_ctl_transform graph node) describe None None)
    [no_path_record node; no_path_record node].
Proof.
  intros Hforward Hreverse. unfold node_to_colorspace.
  change [no_path_record node; no_path_record node]
    with ([no_path_record node] ++ ([no_path_record node] ++ [])).
  eapply writes_bind; [by apply node_to_builtin_transform_no_path|].
  eapply writes_bind; [by apply node_to_builtin_transform_no_path|].
  apply writes_ret.
Qed.

Lemma node_without_path_has_bare_colorspace_witness :
  @node_to_colorspace Sample.imports Sample.graph "lmt/Orphan" tt []
  = (Return {| getName := "LMT - Orphan";
               getFamily := "lmt";
               getDescription := "";
               to_reference_transform := None;
               from_reference_transform := None;
               isData := false |},
     [ (DEBUG, "No path to ACES2065-1 for lmt/Orphan!");
       (DEBUG, "No path to ACES2065-1 for lmt/Orphan!") ]).
Proof.
  apply (@node_without_path_has_bare_colorspace
           Sample.imports Sample.graph "lmt/Orphan" tt); reflexivity.
Defined.



Section stable.
Context {A : Type} (le : A → A → bool) (P : A → Prop) `{∀ x, Decision (P x)}.

Lemma insert_sorted_filter (x : A) (l : list A) :
  (P x → ∀ y, y ∈ l → P y → le x y = true) →
  filter P (PyList.insert_sorted le x l) = filter P (x :: l).
Proof.
  induction l as [|y l IH]; intros Hle; [done|]. cbn [PyList.insert_sorted].
  destruct (le x y) eqn:Hxy; [done|].
  rewrite (filter_cons _ y), IH, !filter_cons.
  - destruct (decide (P x)) as [Hx|Hx]; [|done].
    destruct (decide (P y)) as [Hy|Hy]; [|done].
    rewrite Hle in Hxy; [done|done|apply list_elem_of_here|done].
  - intros Hx z Hz. apply Hle; [done|]. by apply list_elem_of_further.
Qed.

Lemma sorted_filter (l : list A) :
  (∀ x y, x ∈ l → y ∈ l → P x → P y → le x y = true) →
  filter P (PyList.sorted le l) = filter P l.
Proof.
  induction l as [|x l IH]; intros Hle; [done|]. cbn [PyList.sorted].
  rewrite insert_sorted_filter, !filter_cons, IH; [done|..].
  - intros y z Hy Hz. apply Hle; by apply list_elem_of_further.
  - intros Hx y Hy. rewrite sorted_Permutation in Hy.
    apply Hle; [apply list_elem_of_here | by apply list_elem_of_further | done].
Qed.
End stable.

Lemma string_leb_refl (a : string) : Str.leb a a = true.
Proof. by destruct (total string_le a a). Qed.

(** X14: the sort of the views is stable: the views of one display with one
    view name come in the order in which their nodes were classified, ahead
    of the view of the raw colorspace on that display if it has that
    name. *)
Theorem views_of_one_name_keep_their_order `{Imports}
    (graph : DiGraph) (describe : ColorspaceDescriptionStyle)
    (additional_data : bool) (display name : string) :
  NODE_NAME_SEPARATOR ≠ EmptyString →
  ensures (generate_config_aces_data graph describe additional_data)
    (λ r, let same view := view_display view = display ∧ view_view view = name in
          filter same (views r.1)
          = filter same
              (view_of_node graph describe
                 <$> classified_nodes graph "output_transform") ++
            filter same
              ((λ display,
                  {| view_display := display;
                     view_view := beautify_view_name "Utility - Raw";
                     view_colorspace := "Utility - Raw" |})
                 <$> active_displays r.1)).
Proof.
  intros Hsep.
  eapply ensures_weaken; [by apply generate_config_aces_data_value|].
  intros r ->. cbn [fst config_data views active_displays]. cbv zeta.
  unfold config_views. rewrite filter_app. f_equal.
  apply sorted_filter. intros x y _ _ [Hdx Hnx] [Hdy Hny].
  unfold view_key_leb. rewrite Hdx, Hdy, Hnx, Hny, String.eqb_refl.
  apply string_leb_refl.
Qed.

Lemma views_of_one_name_keep_their_order_witness :
  ensures (@generate_config_aces_data Sample.imports Sample.graph tt false)
    (λ r, filter (λ view, view_display view = "sRGB" ∧ view_view view = "sRGB")
                 (views r.1)
          = [ {| view_display := "sRGB";
                 view_view := "sRGB";
                 view_colorspace := "Output - sRGB (100 nits) dim" |} ] ++
            filter (λ view, view_display view = "sRGB" ∧ view_view view = "sRGB")
              ((λ display,
                  {| view_display := display;
                     view_view := "Utility - Raw";
                     view_colorspace := "Utility - Raw" |})
                 <$> active_displays r.1)).
Proof.
  apply (@views_of_one_name_keep_their_order
           Sample.imports Sample.graph tt false "sRGB" "sRGB").
  discriminate.
Defined.
